(** * Obstacle avoidance controller: PID controller, sector ranging and
      the tiered control logic of [obstacle_avoidance_real.py].

    Numbers.  The Python floats of the source are modelled as exact
    rationals ([Q]); equalities between computed values are stated with
    [==].  Rounding, infinities and nan are outside this model: the one
    place where the source produces nan from finite samples (numpy's mean
    of an empty slice) is an explicit outcome of the model.

    Effects.  The two classes of the source are records, their methods are
    functions from the object before the call to the object after it.  A
    call that never returns (a blocking [queue.Queue] operation in the one
    thread of the node) is [None] in the [option] monad below; a raised
    Python exception is an event of the callback. *)

From Stdlib Require Import ZArith QArith List Bool Lia Lqa.
Import ListNotations.
Open Scope Q_scope.

(** ** Comparisons of the source as boolean tests *)

(** [x < y] on floats. *)
Definition Qltb (x y : Q) : bool :=
  (Qnum x * QDen y <? Qnum y * QDen x)%Z.

(** [x >= y] on floats. *)
Definition Qgeb (x y : Q) : bool := Qle_bool y x.

(** ** Calls that may never return *)

Definition ret {A : Type} (a : A) : option A := Some a.

Definition bind {A B : Type} (m : option A) (k : A -> option B) : option B :=
  match m with
  | Some a => k a
  | None => None
  end.

Notation "x <- m ;; k" := (bind m (fun x => k))
  (at level 61, m at next level, right associativity).
Notation "' p <- m ;; k" := (bind m (fun x => let p := x in k))
  (at level 61, p pattern, m at next level, right associativity).

(** ** [queue.Queue] as used by the controller: [put], [full], [get] *)

Module Queue.

Record t : Type := mk { maxsize : Z; items : list Q }.

Definition qsize (q : t) : Z := Z.of_nat (length (items q)).

(** [0 < self.maxsize <= self._qsize()] *)
Definition full (q : t) : bool :=
  (0 <? maxsize q)%Z && (maxsize q <=? qsize q)%Z.

(** [put(item)] with the default [block=True]: on a full queue the caller
    waits for a consumer, and the node has none. *)
Definition put (q : t) (x : Q) : option t :=
  if full q then None else Some (mk (maxsize q) (items q ++ [x])).

(** [get()] with the default [block=True]: on an empty queue the caller
    waits for a producer. *)
Definition get (q : t) : option (Q * t) :=
  match items q with
  | [] => None
  | x :: rest => Some (x, mk (maxsize q) rest)
  end.

End Queue.

(** ** class PIDController *)

Record PIDController : Type := mkPID {
  kP : Q;               (* Proportional gain *)
  kI : Q;               (* Integral gain *)
  kD : Q;               (* Derivative gain *)
  kS : Z;               (* Saturation constant (error history buffer size) *)
  err_int : Q;          (* Error integral *)
  err_dif : Q;          (* Error difference *)
  err_prev : Q;         (* Previous error *)
  err_hist : Queue.t;   (* Limited buffer of error history *)
  t_prev : Q            (* Previous time *)
}.

(** [PIDController.__init__] *)
Definition PIDController_init (kP kI kD : Q) (kS : Z) : PIDController :=
  mkPID kP kI kD kS 0 0 0 (Queue.mk kS []) 0.

(** [PIDController.control]: the returned value is [Some u] after
    [return u] and [None] when the body falls off its end (Python's
    [None]); the second component is the object after the call.  The
    control flow, the queue and the expression of [u] are the source's; the
    additions, products and quotients are exact, where the floats round, so
    an exact value of [err_int] or [u] stated below is the float's value up
    to rounding. *)
Definition control (self : PIDController) (err t : Q)
  : option (option Q * PIDController) :=
  let dt := t - t_prev self in
  if Qltb 0 dt then
    h1 <- Queue.put (err_hist self) err ;;
    let i1 := err_int self + err in
    '(i2, h2) <- (if Queue.full h1
                  then '(x, h) <- Queue.get h1 ;; ret (i1 - x, h)
                  else ret (i1, h1)) ;;
    let dif := err - err_prev self in
    let u := (kP self * err) + (kI self * i2 * dt) + (kD self * dif / dt) in
    ret (Some u,
         mkPID (kP self) (kI self) (kD self) (kS self) i2 dif err h2 t)
  else
    ret (None, self).

(** The same error fed at each of the timestamps [ts], in order; the
    returned values are dropped. *)
Fixpoint feed (self : PIDController) (err : Q) (ts : list Q)
  : option PIDController :=
  match ts with
  | [] => ret self
  | t :: ts' => '(_, self') <- control self err t ;; feed self' err ts'
  end.

(** Sum of a list of samples. *)
Definition Qsum (l : list Q) : Q := fold_right Qplus 0 l.

(** The error history has room for one more sample and was built with the
    controller's own [kS]. *)
Definition pid_ready (self : PIDController) : Prop :=
  Queue.maxsize (err_hist self) = kS self /\
  Queue.full (err_hist self) = false.

(** The error integral is the sum of the errors in the history. *)
Definition pid_integral_ok (self : PIDController) : Prop :=
  err_int self == Qsum (Queue.items (err_hist self)).

(** The window a controller with [kS > 0] really keeps between two calls:
    [kS - 1] errors, because the oldest error leaves as soon as the queue
    holds [kS] of them. *)
Definition window (self : PIDController) : nat := Z.to_nat (kS self - 1).

(** Timestamps in strictly increasing order, all after [t0]. *)
Fixpoint increasing_from (t0 : Q) (ts : list Q) : Prop :=
  match ts with
  | [] => True
  | t :: ts' => t0 < t /\ increasing_from t ts'
  end.

(** ** Sector ranging *)

(** [a[lo:hi]] for [0 <= lo <= hi]: a slice past the end of the array is
    cut short, it raises nothing. *)
Definition slice (lo hi : nat) (a : list Q) : list Q :=
  firstn (hi - lo) (skipn lo a).

(** [np.mean]: the sum over the number of samples, both exact here, where
    numpy rounds each addition and the quotient in binary floating point;
    what is proved of a mean holds of numpy's value up to that rounding,
    unless the statement says more.  On an empty slice numpy warns and
    returns nan, which is [None] here. *)
Definition np_mean (a : list Q) : option Q :=
  match a with
  | [] => None
  | _ :: _ => Some (Qsum a / inject_Z (Z.of_nat (length a)))
  end.

(** The five distances to collision of one control cycle. *)
Record Snapshot : Type := mkSnapshot {
  front : Q;
  oblique_left : Q;
  oblique_right : Q;
  left : Q;
  right : Q
}.

Definition front_sector : nat := 20.
Definition oblique_sector : nat := 70.
Definition side_sector : nat := 55.

(** Lines 120 to 130 of [robot_controller_callback].  [None]: one of the
    slices is empty and its mean is nan. *)
Definition sectors (scan : list Q) : option Snapshot :=
  f1 <- np_mean (slice 0 front_sector scan) ;;
  f2 <- np_mean (slice (360 - front_sector) 360 scan) ;;
  ol <- np_mean (slice 0 oblique_sector scan) ;;
  or <- np_mean (slice (360 - oblique_sector) 360 scan) ;;
  l <- np_mean (slice 30 (30 + side_sector) scan) ;;
  r <- np_mean (slice (330 - side_sector) 330 scan) ;;
  ret (mkSnapshot (f1 + f2 / 2) ol or l r).

(** ** Control logic *)

(** The three branches of the [if]/[elif]/[else] of lines 133 to 141, named
    after the situations their comments describe. *)
Inductive Tier : Type :=
| CollisionImminent   (* Too close to obstacle(s) *)
| Caution             (* Fairly away from obstacles *)
| Clear.              (* Safely away from obstacles *)

(** The values of [LIN_VEL] and [ANG_VEL] after the branch; [None] is
    Python's [None]. *)
Record Decision : Type := mkDecision {
  tier : Tier;
  LIN_VEL : option Q;
  ANG_VEL : option Q
}.

(** Lines 133 to 141: the branch taken, the two velocities, and the lateral
    and longitudinal controllers after the calls the branch makes. *)
Definition control_logic (s : Snapshot) (tstamp : Q)
    (lat lon : PIDController)
  : option (Decision * PIDController * PIDController) :=
  if Qltb (oblique_left s) 0.5 || Qltb (oblique_right s) 0.5 then
    '(ang, lat') <- control lat (16 * (left s - right s)) tstamp ;;
    ret (mkDecision CollisionImminent (Some 0.005) ang, lat', lon)
  else if (Qltb 0.5 (oblique_left s) && Qltb (oblique_left s) 1)
          || (Qltb 0.5 (oblique_right s) && Qltb (oblique_right s) 1) then
    '(lin, lon') <- control lon (front s) tstamp ;;
    '(ang, lat') <- control lat (left s - right s) tstamp ;;
    ret (mkDecision Caution lin ang, lat', lon')
  else
    '(ang, lat') <- control lat (left s - right s) tstamp ;;
    ret (mkDecision Clear (Some 0.2) ang, lat', lon).

(** ** Saturation of the command *)

(** Python's [min(a, b)] on two floats: [b] when [b < a], else [a]. *)
Definition py_min (a b : Q) : Q := if Qltb b a then b else a.

(** The linear and angular caps of lines 142 and 143. *)
Definition clamp_linear (v : Q) : Q := py_min 0.22 v.
Definition clamp_angular (w : Q) : Q := py_min 2.84 w.

(** ** class RobotController *)

(** The two fields of the [Twist] message the node writes. *)
Record Twist : Type := mkTwist { linear_x : Q; angular_z : Q }.

Record RobotController : Type := mkNode {
  laserscan : option (list Q);   (* None until the first scan *)
  ctrl_msg : Twist;
  start_time : Q;
  pid_lat : PIDController;
  pid_lon : PIDController;
  data_available : bool
}.

(** [RobotController.__init__], started at clock time [now]. *)
Definition RobotController_init (now : Q) : RobotController :=
  mkNode None (mkTwist 0 0) now
         (PIDController_init 0.22 0.01 0.3 10)
         (PIDController_init 0.11 0.001 0.01 10)
         false.

(** [robot_laserscan_callback]: the ranges are stored with every sample
    [>= 3.5] replaced by [3.5]. *)
Definition robot_laserscan_callback (self : RobotController)
    (ranges : list Q) : RobotController :=
  mkNode (Some (map (fun x => if Qgeb x 3.5 then 3.5 else x) ranges))
         (ctrl_msg self) (start_time self) (pid_lat self) (pid_lon self)
         true.

Inductive PyError : Type := TypeError.

(** What one run of the timer callback does towards the outside. *)
Inductive Event : Type :=
| Initializing                 (* prints 'Initializing...' *)
| Idle                         (* delay over, no scan yet: nothing *)
| Published (msg : Twist)      (* the message handed to the publisher *)
| Raised (e : PyError)         (* the exception leaves the callback *)
| MeanOfEmptySlice.            (* a sector mean is nan: the model stops here *)

Definition DELAY : Q := 4.0.

Definition set_pids (self : RobotController) (lat lon : PIDController)
  : RobotController :=
  mkNode (laserscan self) (ctrl_msg self) (start_time self) lat lon
         (data_available self).

Definition set_ctrl_msg (self : RobotController) (msg : Twist)
  : RobotController :=
  mkNode (laserscan self) msg (start_time self) (pid_lat self)
         (pid_lon self) (data_available self).

(** [robot_controller_callback], run when the node clock reads [now] and
    [time.time()] returns [tstamp].  [min(0.22, None)] raises [TypeError];
    line 142 is executed before line 143, so a failure of line 143 leaves
    [linear.x] already written.

    The model covers stored scans of at least 341 samples.  For a shorter
    one some sector slice is empty and its mean is nan: the source goes on
    with nan (it calls the controllers and publishes, and on an empty scan
    the [min(self.laserscan)] of line 145 then raises [ValueError]); the
    model stops at [MeanOfEmptySlice] and says nothing of what follows.
    From 341 samples on, line 145 takes the minimum of a scan that is not
    empty and prints it, which has no effect on the node. *)
Definition robot_controller_callback (self : RobotController)
    (now tstamp : Q) : option (Event * RobotController) :=
  if Qltb DELAY (now - start_time self) then
    if data_available self then
      match laserscan self with
      | None => ret (Raised TypeError, self)
      | Some scan =>
        match sectors scan with
        | None => ret (MeanOfEmptySlice, self)
        | Some s =>
          '(d, lat', lon') <-
            control_logic s tstamp (pid_lat self) (pid_lon self) ;;
          let self1 := set_pids self lat' lon' in
          match LIN_VEL d with
          | None => ret (Raised TypeError, self1)
          | Some lin =>
            let self2 :=
              set_ctrl_msg self1
                (mkTwist (clamp_linear lin) (angular_z (ctrl_msg self1))) in
            match ANG_VEL d with
            | None => ret (Raised TypeError, self2)
            | Some ang =>
              let self3 :=
                set_ctrl_msg self2
                  (mkTwist (linear_x (ctrl_msg self2)) (clamp_angular ang)) in
              ret (Published (ctrl_msg self3), self3)
            end
          end
        end
      end
    else ret (Idle, self)
  else ret (Initializing, self).

(** A scan of [n] samples, all [v]. *)
Definition uniform_scan (n : nat) (v : Q) : list Q := repeat v n.

(** The node as a callback that returned leaves it; [self] itself for a
    callback that did not return. *)
Definition node_after (r : option (Event * RobotController))
    (self : RobotController) : RobotController :=
  match r with
  | Some (_, self') => self'
  | None => self
  end.

(** A node started at clock time 0 that has received one scan. *)
Definition node_with_scan (ranges : list Q) : RobotController :=
  robot_laserscan_callback (RobotController_init 0) ranges.

(** A series of calls [control(err, t)] on one controller, in order; the
    returned values are dropped. *)
Fixpoint control_seq (self : PIDController) (calls : list (Q * Q))
  : option PIDController :=
  match calls with
  | [] => ret self
  | (err, t) :: rest =>
    '(_, self') <- control self err t ;; control_seq self' rest
  end.

(** The last [n] elements of a list (all of it when it is shorter). *)
Definition lastn (n : nat) (l : list Q) : list Q := skipn (length l - n) l.





(** * Properties *)

(** ** Comparisons *)

Lemma Qltb_lt (x y : Q) : Qltb x y = true <-> x < y.
Proof. unfold Qltb, Qlt. apply Z.ltb_lt. Qed.

Lemma Qltb_ge (x y : Q) : Qltb x y = false <-> y <= x.
Proof. unfold Qltb, Qle. rewrite Z.ltb_ge. reflexivity. Qed.

Lemma Qgeb_ge (x y : Q) : Qgeb x y = true <-> y <= x.
Proof. unfold Qgeb. apply Qle_bool_iff. Qed.

Lemma Qgeb_lt (x y : Q) : Qgeb x y = false <-> x < y.
Proof.
  unfold Qgeb. split; intro H.
  - apply Qnot_le_lt. intro Hle. apply Qle_bool_iff in Hle. congruence.
  - destruct (Qle_bool y x) eqn:E; [|reflexivity].
    apply Qle_bool_iff in E. lra.
Qed.

(** ** The error history *)

Lemma Qsum_app (l1 l2 : list Q) : Qsum (l1 ++ l2) == Qsum l1 + Qsum l2.
Proof.
  induction l1 as [|x l1 IH]; simpl.
  - lra.
  - rewrite IH. lra.
Qed.

Lemma full_false_room (q : Queue.t) :
  Queue.full q = false <->
  (Queue.maxsize q <= 0 \/ Queue.qsize q < Queue.maxsize q)%Z.
Proof.
  unfold Queue.full. rewrite andb_false_iff, Z.ltb_ge, Z.leb_gt. reflexivity.
Qed.

(** One call that passes the [dt > 0.0] test, on a history with room: the
    new error is appended, and the oldest one is dropped when the append
    filled the queue. *)
Lemma control_advance (self : PIDController) (err t : Q) :
  pid_ready self ->
  0 < t - t_prev self ->
  exists (i2 : Q) (h2 : list Q),
    control self err t =
      Some (Some ((kP self * err) + (kI self * i2 * (t - t_prev self))
                  + (kD self * (err - err_prev self) / (t - t_prev self))),
            mkPID (kP self) (kI self) (kD self) (kS self) i2
                  (err - err_prev self) err (Queue.mk (kS self) h2) t)
    /\ ((Queue.full (Queue.mk (kS self) (Queue.items (err_hist self) ++ [err]))
           = true
         /\ exists x, Queue.items (err_hist self) ++ [err] = x :: h2
                      /\ i2 = err_int self + err - x)
        \/ (Queue.full (Queue.mk (kS self) (Queue.items (err_hist self) ++ [err]))
              = false
            /\ h2 = Queue.items (err_hist self) ++ [err]
            /\ i2 = err_int self + err)).
Proof.
  intros [Hmax Hroom] Hdt.
  unfold control. apply Qltb_lt in Hdt. rewrite Hdt.
  unfold Queue.put. rewrite Hroom, Hmax. cbn [bind].
  destruct (Queue.full (Queue.mk (kS self)
                                 (Queue.items (err_hist self) ++ [err])))
    eqn:Hfull.
  - unfold Queue.get. cbn [Queue.items Queue.maxsize].
    destruct (Queue.items (err_hist self) ++ [err]) as [|x rest] eqn:Happ.
    + destruct (Queue.items (err_hist self)); discriminate.
    + cbn. exists (err_int self + err - x), rest. split; [reflexivity|].
      left. split; [reflexivity|]. exists x. split; reflexivity.
  - cbn. exists (err_int self + err), (Queue.items (err_hist self) ++ [err]).
    split; [reflexivity|]. right. repeat split; reflexivity.
Qed.

(** A history with room keeps room after a call. *)
Lemma control_keeps_ready (self self' : PIDController) (err t : Q)
    (u : option Q) :
  pid_ready self ->
  control self err t = Some (u, self') ->
  pid_ready self'.
Proof.
  intros Hready Hcall.
  destruct (Qltb 0 (t - t_prev self)) eqn:Hdt.
  - apply Qltb_lt in Hdt.
    destruct (control_advance self err t Hready Hdt)
      as (i2 & h2 & Heq & Hcase).
    rewrite Heq in Hcall. inversion Hcall; subst; clear Hcall.
    split; [reflexivity|]. cbn [err_hist].
    destruct Hready as [Hmax Hroom]. apply full_false_room in Hroom.
    rewrite Hmax in Hroom. unfold Queue.qsize in Hroom.
    destruct Hcase as [(Hfull & x & Happ & _) | (Hfull & Hh2 & _)].
    + apply full_false_room. cbn [Queue.maxsize]. unfold Queue.qsize.
      cbn [Queue.items].
      apply (f_equal (@length Q)) in Happ.
      rewrite length_app in Happ. cbn [length] in Happ.
      unfold Queue.full in Hfull. cbn [Queue.maxsize] in Hfull.
      apply andb_true_iff in Hfull. destruct Hfull as [Hpos _].
      apply Z.ltb_lt in Hpos. lia.
    + subst. exact Hfull.
  - unfold control in Hcall. rewrite Hdt in Hcall.
    inversion Hcall; subst. exact Hready.
Qed.

(** A freshly built controller has room in its history, whatever [kS]
    is: with [kS <= 0] the queue is unbounded. *)
Lemma PIDController_init_ready (kp ki kd : Q) (ks : Z) :
  pid_ready (PIDController_init kp ki kd ks).
Proof.
  split; [reflexivity|]. apply full_false_room.
  cbn. unfold Queue.qsize. cbn. lia.
Qed.

(** ... and its integral, 0, is the sum of its empty history. *)
Lemma PIDController_init_integral_ok (kp ki kd : Q) (ks : Z) :
  pid_integral_ok (PIDController_init kp ki kd ks).
Proof. unfold pid_integral_ok. cbn. reflexivity. Qed.

Lemma repeat_snoc (e : Q) (k : nat) : repeat e k ++ [e] = e :: repeat e k.
Proof.
  induction k as [|k IH]; cbn; [reflexivity|]. rewrite IH. reflexivity.
Qed.

(** A constant error fed at increasing timestamps to a controller whose
    history holds [k] copies of it. *)
Lemma feed_constant (e : Q) (ts : list Q) :
  forall (self : PIDController) (k : nat),
    (0 < kS self)%Z ->
    Queue.maxsize (err_hist self) = kS self ->
    Queue.items (err_hist self) = repeat e k ->
    (k <= window self)%nat ->
    err_int self == inject_Z (Z.of_nat k) * e ->
    increasing_from (t_prev self) ts ->
    exists self',
      feed self e ts = Some self' /\
      kS self' = kS self /\
      Queue.items (err_hist self')
        = repeat e (Nat.min (k + length ts) (window self)) /\
      err_int self'
        == inject_Z (Z.of_nat (Nat.min (k + length ts) (window self))) * e.
Proof.
  induction ts as [|t ts IH]; intros self k Hpos Hmax Hitems Hk Hint Hts.
  - exists self. cbn [feed length]. rewrite Nat.add_0_r, Nat.min_l by exact Hk.
    repeat split; assumption.
  - destruct Hts as [Ht Hts]. unfold window in *.
    assert (Hready : pid_ready self).
    { split; [exact Hmax|]. apply full_false_room. unfold Queue.qsize.
      rewrite Hmax, Hitems, repeat_length. lia. }
    assert (Hdt : 0 < t - t_prev self) by lra.
    destruct (control_advance self e t Hready Hdt)
      as (i2 & h2 & Heq & Hcase).
    cbn [feed]. rewrite Heq. cbn [bind].
    rewrite Hitems, repeat_snoc in Hcase.
    unfold Queue.full in Hcase. cbn [Queue.maxsize] in Hcase.
    unfold Queue.qsize in Hcase. cbn [Queue.items length] in Hcase.
    rewrite repeat_length in Hcase.
    destruct Hcase as [(Hfull & x & Happ & Hi2) | (Hfull & Hh2 & Hi2)].
    + apply andb_true_iff in Hfull. destruct Hfull as [_ Hle].
      apply Z.leb_le in Hle.
      inversion Happ; subst x h2; clear Happ.
      edestruct (IH (mkPID (kP self) (kI self) (kD self) (kS self) i2
                           (e - err_prev self) e
                           (Queue.mk (kS self) (repeat e k)) t) k)
        as (self' & Hfeed & HkS & Hit & Hsum);
        cbn [kS err_hist err_int t_prev Queue.maxsize Queue.items];
        try assumption; try reflexivity.
      * rewrite Hi2, Hint. ring.
      * exists self'. cbn [kS] in *. split; [exact Hfeed|].
        split; [exact HkS|].
        cbn [length].
        replace (Nat.min (k + S (length ts)) (Z.to_nat (kS self - 1)))
          with (Nat.min (k + length ts) (Z.to_nat (kS self - 1))) by lia.
        split; assumption.
    + apply andb_false_iff in Hfull.
      assert (Hlt : (S k <= Z.to_nat (kS self - 1))%nat).
      { destruct Hfull as [H|H]; [apply Z.ltb_ge in H|apply Z.leb_gt in H];
          lia. }
      subst h2.
      edestruct (IH (mkPID (kP self) (kI self) (kD self) (kS self) i2
                           (e - err_prev self) e
                           (Queue.mk (kS self) (e :: repeat e k)) t) (S k))
        as (self' & Hfeed & HkS & Hit & Hsum);
        cbn [kS err_hist err_int t_prev Queue.maxsize Queue.items];
        try assumption; try reflexivity.
      * rewrite Hi2, Hint. rewrite Nat2Z.inj_succ. unfold Z.succ.
        rewrite inject_Z_plus. ring.
      * exists self'. cbn [kS] in *. split; [exact Hfeed|].
        split; [exact HkS|].
        cbn [length].
        replace (k + S (length ts))%nat with (S k + length ts)%nat by lia.
        split; assumption.
Qed.

(** ** PIDController.control *)

(** C5.  A call whose timestamp does not advance ([dt <= 0]: the same or an
    earlier timestamp than the stored one) changes nothing in the
    controller, history, integral, previous error and previous timestamp
    included, and returns no output. *)
Theorem control_stale_timestamp_noop (self : PIDController) (err t : Q) :
  t - t_prev self <= 0 ->
  control self err t = Some (None, self).
Proof.
  intro Hdt. unfold control.
  apply Qltb_ge in Hdt. rewrite Hdt. reflexivity.
Qed.

Lemma control_stale_timestamp_noop_witness :
  5 - t_prev (mkPID 0.22 0.01 0.3 10 3 1 2 (Queue.mk 10 [1; 2]) 5) <= 0 /\
  control (mkPID 0.22 0.01 0.3 10 3 1 2 (Queue.mk 10 [1; 2]) 5) 7 5
  = Some (None, mkPID 0.22 0.01 0.3 10 3 1 2 (Queue.mk 10 [1; 2]) 5).
Proof.
  split.
  - vm_compute. discriminate.
  - apply control_stale_timestamp_noop. vm_compute. discriminate.
Defined.



(** C3.  A controller built with [kS = 10] and fed a constant error [e] at
    more than ten strictly increasing timestamps ends with nine copies of
    [e] in its history and with the integral [9*e], which is not [10*e]
    unless [e] is zero. *)
Theorem constant_error_integral_settles (kp ki kd e : Q) (ts : list Q) :
  increasing_from 0 ts ->
  (10 < length ts)%nat ->
  exists self' : PIDController,
    feed (PIDController_init kp ki kd 10) e ts = Some self' /\
    Queue.items (err_hist self') = repeat e 9 /\
    err_int self' == 9 * e /\
    (~ e == 0 -> ~ err_int self' == 10 * e).
Proof.
  intros Hts Hlen.
  destruct (feed_constant e ts (PIDController_init kp ki kd 10) 0)
    as (self' & Hfeed & _ & Hitems & Hint);
    cbn [PIDController_init kS err_hist err_int t_prev
         Queue.maxsize Queue.items];
    try reflexivity; try exact Hts; try lia.
  unfold window in *. cbn [PIDController_init kS] in *.
  change (Z.to_nat (10 - 1)) with 9%nat in *.
  rewrite Nat.min_r in Hitems, Hint by lia.
  change (inject_Z (Z.of_nat 9)) with 9 in Hint.
  exists self'. repeat split; try assumption.
  intros He H10. rewrite Hint in H10. apply He. lra.
Qed.

Lemma constant_error_integral_settles_witness :
  exists self' : PIDController,
    feed (PIDController_init 0.22 0.01 0.3 10) 1
         [1; 2; 3; 4; 5; 6; 7; 8; 9; 10; 11] = Some self' /\
    Queue.items (err_hist self') = repeat 1 9 /\
    err_int self' == 9 * 1 /\
    (~ 1 == 0 -> ~ err_int self' == 10 * 1).
Proof.
  apply (constant_error_integral_settles 0.22 0.01 0.3 1
           [1; 2; 3; 4; 5; 6; 7; 8; 9; 10; 11]).
  - cbn. repeat split.
  - cbn. lia.
Defined.

(** A controller whose history has room always returns from [control]. *)
Lemma control_total (self : PIDController) (err t : Q) :
  pid_ready self ->
  exists (u : option Q) (self' : PIDController),
    control self err t = Some (u, self').
Proof.
  intro Hready. destruct (Qltb 0 (t - t_prev self)) eqn:Hdt.
  - apply Qltb_lt in Hdt.
    destruct (control_advance self err t Hready Hdt) as (i2 & h2 & Heq & _).
    eauto.
  - unfold control. rewrite Hdt. cbn. eauto.
Qed.

(** ** Control logic *)

(** The guard of the first branch, as a proposition. *)
Lemma too_close_guard (s : Snapshot) :
  Qltb (oblique_left s) 0.5 || Qltb (oblique_right s) 0.5 = true <->
  oblique_left s < 0.5 \/ oblique_right s < 0.5.
Proof. rewrite orb_true_iff, !Qltb_lt. reflexivity. Qed.

(** The guard of the second branch, as a proposition. *)
Lemma fairly_away_guard (s : Snapshot) :
  (Qltb 0.5 (oblique_left s) && Qltb (oblique_left s) 1)
  || (Qltb 0.5 (oblique_right s) && Qltb (oblique_right s) 1) = true <->
  (0.5 < oblique_left s /\ oblique_left s < 1) \/
  (0.5 < oblique_right s /\ oblique_right s < 1).
Proof. rewrite orb_true_iff, !andb_true_iff, !Qltb_lt. reflexivity. Qed.

(** With both histories ready the control logic returns, and the branch it
    took is read off the two oblique distances. *)
Lemma control_logic_tier (s : Snapshot) (tstamp : Q)
    (lat lon : PIDController) :
  pid_ready lat ->
  pid_ready lon ->
  exists (d : Decision) (lat' lon' : PIDController),
    control_logic s tstamp lat lon = Some (d, lat', lon') /\
    tier d =
      if Qltb (oblique_left s) 0.5 || Qltb (oblique_right s) 0.5
      then CollisionImminent
      else if (Qltb 0.5 (oblique_left s) && Qltb (oblique_left s) 1)
              || (Qltb 0.5 (oblique_right s) && Qltb (oblique_right s) 1)
           then Caution
           else Clear.
Proof.
  intros Hlat Hlon. unfold control_logic.
  destruct (Qltb (oblique_left s) 0.5 || Qltb (oblique_right s) 0.5).
  - destruct (control_total lat (16 * (left s - right s)) tstamp Hlat)
      as (u & lat' & ->).
    cbn. eauto 6.
  - destruct ((Qltb 0.5 (oblique_left s) && Qltb (oblique_left s) 1)
              || (Qltb 0.5 (oblique_right s) && Qltb (oblique_right s) 1)).
    + destruct (control_total lon (front s) tstamp Hlon) as (v & lon' & ->).
      destruct (control_total lat (left s - right s) tstamp Hlat)
        as (u & lat' & ->).
      cbn. eauto 6.
    + destruct (control_total lat (left s - right s) tstamp Hlat)
        as (u & lat' & ->).
      cbn. eauto 6.
Qed.

(** The three guards read only the two oblique distances. *)
Lemma guards_respect_obliques (s1 s2 : Snapshot) :
  oblique_left s1 == oblique_left s2 ->
  oblique_right s1 == oblique_right s2 ->
  (Qltb (oblique_left s1) 0.5 || Qltb (oblique_right s1) 0.5
   = Qltb (oblique_left s2) 0.5 || Qltb (oblique_right s2) 0.5) /\
  ((Qltb 0.5 (oblique_left s1) && Qltb (oblique_left s1) 1)
   || (Qltb 0.5 (oblique_right s1) && Qltb (oblique_right s1) 1)
   = (Qltb 0.5 (oblique_left s2) && Qltb (oblique_left s2) 1)
     || (Qltb 0.5 (oblique_right s2) && Qltb (oblique_right s2) 1)).
Proof.
  intros Hl Hr.
  assert (Hlt : forall a b c d, a == b -> c == d -> Qltb a c = Qltb b d).
  { intros a b c d Hab Hcd.
    destruct (Qltb a c) eqn:E1, (Qltb b d) eqn:E2; try reflexivity.
    - apply Qltb_lt in E1. apply Qltb_ge in E2. lra.
    - apply Qltb_ge in E1. apply Qltb_lt in E2. lra. }
  rewrite (Hlt _ _ 0.5 0.5 Hl), (Hlt _ _ 0.5 0.5 Hr) by reflexivity.
  rewrite (Hlt 0.5 0.5 _ _ (Qeq_refl _) Hl), (Hlt _ _ 1 1 Hl (Qeq_refl _)).
  rewrite (Hlt 0.5 0.5 _ _ (Qeq_refl _) Hr), (Hlt _ _ 1 1 Hr (Qeq_refl _)).
  split; reflexivity.
Qed.

(** C1.  When the left or the right oblique distance is below 0.5 the first
    branch is taken whatever the front, left and right distances are: the
    linear velocity is 0.005 and the angular velocity is what the lateral
    controller returns for the error [16*(left - right)]. *)
Theorem too_close_crawls_and_steers (s : Snapshot) (tstamp : Q)
    (lat lon : PIDController) :
  oblique_left s < 0.5 \/ oblique_right s < 0.5 ->
  pid_ready lat ->
  exists (ang : option Q) (lat' : PIDController),
    control lat (16 * (left s - right s)) tstamp = Some (ang, lat') /\
    control_logic s tstamp lat lon
    = Some (mkDecision CollisionImminent (Some 0.005) ang, lat', lon).
Proof.
  intros Hclose Hlat. apply too_close_guard in Hclose.
  destruct (control_total lat (16 * (left s - right s)) tstamp Hlat)
    as (ang & lat' & Hcall).
  exists ang, lat'. split; [exact Hcall|].
  unfold control_logic. rewrite Hclose, Hcall. reflexivity.
Qed.

Lemma too_close_crawls_and_steers_witness :
  exists (ang : option Q) (lat' : PIDController),
    control (PIDController_init 0.22 0.01 0.3 10) (16 * (1 - 3)) 100
    = Some (ang, lat') /\
    control_logic (mkSnapshot 2.5 0.3 2 1 3) 100
                  (PIDController_init 0.22 0.01 0.3 10)
                  (PIDController_init 0.11 0.001 0.01 10)
    = Some (mkDecision CollisionImminent (Some 0.005) ang, lat',
            PIDController_init 0.11 0.001 0.01 10).
Proof.
  apply (too_close_crawls_and_steers (mkSnapshot 2.5 0.3 2 1 3) 100
           (PIDController_init 0.22 0.01 0.3 10)
           (PIDController_init 0.11 0.001 0.01 10)).
  - left. reflexivity.
  - split; reflexivity.
Defined.

(** C6.  With the left oblique distance at exactly 0.5 and the right one at
    1 or more, neither of the first two guards holds (the second one asks
    for more than 0.5): the last branch is taken, with the cruising linear
    velocity 0.2 and no call to the longitudinal controller. *)
Theorem half_metre_boundary_is_clear (s : Snapshot) (tstamp : Q)
    (lat lon : PIDController) :
  oblique_left s == 0.5 ->
  1 <= oblique_right s ->
  pid_ready lat ->
  exists (ang : option Q) (lat' : PIDController),
    control lat (left s - right s) tstamp = Some (ang, lat') /\
    control_logic s tstamp lat lon
    = Some (mkDecision Clear (Some 0.2) ang, lat', lon).
Proof.
  intros Hl Hr Hlat.
  destruct (control_total lat (left s - right s) tstamp Hlat)
    as (ang & lat' & Hcall).
  exists ang, lat'. split; [exact Hcall|].
  unfold control_logic.
  assert (H1 : Qltb (oblique_left s) 0.5 || Qltb (oblique_right s) 0.5
               = false).
  { apply orb_false_iff. split; apply Qltb_ge; lra. }
  assert (H2 : (Qltb 0.5 (oblique_left s) && Qltb (oblique_left s) 1)
               || (Qltb 0.5 (oblique_right s) && Qltb (oblique_right s) 1)
               = false).
  { apply orb_false_iff. split; apply andb_false_iff.
    - left. apply Qltb_ge. lra.
    - right. apply Qltb_ge. lra. }
  rewrite H1, H2, Hcall. reflexivity.
Qed.

Lemma half_metre_boundary_is_clear_witness :
  exists (ang : option Q) (lat' : PIDController),
    control (PIDController_init 0.22 0.01 0.3 10) (1 - 1) 100
    = Some (ang, lat') /\
    control_logic (mkSnapshot 1.5 0.5 2 1 1) 100
                  (PIDController_init 0.22 0.01 0.3 10)
                  (PIDController_init 0.11 0.001 0.01 10)
    = Some (mkDecision Clear (Some 0.2) ang, lat',
            PIDController_init 0.11 0.001 0.01 10).
Proof.
  apply (half_metre_boundary_is_clear (mkSnapshot 1.5 0.5 2 1 1) 100
           (PIDController_init 0.22 0.01 0.3 10)
           (PIDController_init 0.11 0.001 0.01 10)).
  - reflexivity.
  - cbn. unfold Qle. cbn. lia.
  - split; reflexivity.
Defined.

(** C10.  The control logic takes one branch, and which one is settled by
    the two oblique distances alone: two snapshots that agree on them take
    the same branch, whatever their front, left and right distances, the
    timestamps and the controllers are. *)
Theorem tier_settled_by_obliques (s1 s2 : Snapshot) (t1 t2 : Q)
    (lat1 lon1 lat2 lon2 : PIDController) :
  oblique_left s1 == oblique_left s2 ->
  oblique_right s1 == oblique_right s2 ->
  pid_ready lat1 -> pid_ready lon1 ->
  pid_ready lat2 -> pid_ready lon2 ->
  exists (d1 d2 : Decision) (lat1' lon1' lat2' lon2' : PIDController),
    control_logic s1 t1 lat1 lon1 = Some (d1, lat1', lon1') /\
    control_logic s2 t2 lat2 lon2 = Some (d2, lat2', lon2') /\
    tier d1 = tier d2.
Proof.
  intros Hl Hr Hlat1 Hlon1 Hlat2 Hlon2.
  destruct (control_logic_tier s1 t1 lat1 lon1 Hlat1 Hlon1)
    as (d1 & lat1' & lon1' & Hc1 & Ht1).
  destruct (control_logic_tier s2 t2 lat2 lon2 Hlat2 Hlon2)
    as (d2 & lat2' & lon2' & Hc2 & Ht2).
  exists d1, d2, lat1', lon1', lat2', lon2'.
  split; [exact Hc1|]. split; [exact Hc2|].
  destruct (guards_respect_obliques s1 s2 Hl Hr) as [G1 G2].
  rewrite Ht1, Ht2, G1, G2. reflexivity.
Qed.

Lemma tier_settled_by_obliques_witness :
  exists (d1 d2 : Decision) (lat1' lon1' lat2' lon2' : PIDController),
    control_logic (mkSnapshot 1.5 0.7 2 1 3) 100
                  (PIDController_init 0.22 0.01 0.3 10)
                  (PIDController_init 0.11 0.001 0.01 10)
    = Some (d1, lat1', lon1') /\
    control_logic (mkSnapshot 0.1 0.7 2 3 0.2) 7
                  (PIDController_init 0.22 0.01 0.3 10)
                  (PIDController_init 0.11 0.001 0.01 10)
    = Some (d2, lat2', lon2') /\
    tier d1 = tier d2.
Proof.
  apply (tier_settled_by_obliques
           (mkSnapshot 1.5 0.7 2 1 3) (mkSnapshot 0.1 0.7 2 3 0.2) 100 7
           (PIDController_init 0.22 0.01 0.3 10)
           (PIDController_init 0.11 0.001 0.01 10)
           (PIDController_init 0.22 0.01 0.3 10)
           (PIDController_init 0.11 0.001 0.01 10));
    try reflexivity; split; reflexivity.
Defined.

(** ** Saturation *)

Lemma py_min_cases (a b : Q) :
  (a < b -> py_min a b = a) /\
  (b <= a -> py_min a b == b) /\
  (b < a -> py_min a b = b).
Proof.
  unfold py_min. destruct (Qltb b a) eqn:E.
  - apply Qltb_lt in E. repeat split; intros; try reflexivity; lra.
  - apply Qltb_ge in E. repeat split; intros; try reflexivity; lra.
Qed.

(** C7.  The linear velocity is capped at 0.22 and the angular velocity at
    2.84 by a one-sided minimum: a value above the cap becomes the cap, a
    value at or below it passes unchanged, and no value is raised, so
    negative values pass unchanged too. *)
Theorem clamp_is_one_sided (v w : Q) :
  ((0.22 < v -> clamp_linear v = 0.22) /\
   (v <= 0.22 -> clamp_linear v == v) /\
   (v < 0 -> clamp_linear v = v)) /\
  ((2.84 < w -> clamp_angular w = 2.84) /\
   (w <= 2.84 -> clamp_angular w == w) /\
   (w < 0 -> clamp_angular w = w)).
Proof.
  unfold clamp_linear, clamp_angular.
  destruct (py_min_cases 0.22 v) as (A1 & A2 & A3).
  destruct (py_min_cases 2.84 w) as (B1 & B2 & B3).
  repeat split; auto.
  - intro Hneg. apply A3. lra.
  - intro Hneg. apply B3. lra.
Qed.

(** ** Sector ranging *)

Lemma Forall_slice (P : Q -> Prop) (lo hi : nat) (a : list Q) :
  Forall P a -> Forall P (slice lo hi a).
Proof.
  intro Ha. unfold slice.
  assert (Hskip : forall n l, Forall P l -> Forall P (skipn n l)).
  { induction n as [|n IH]; intros l Hl; [exact Hl|].
    destruct Hl; cbn; [constructor|auto]. }
  assert (Hfirst : forall n l, Forall P l -> Forall P (firstn n l)).
  { induction n as [|n IH]; intros l Hl; [constructor|].
    destruct Hl; cbn; constructor; auto. }
  auto.
Qed.

Lemma length_slice (lo hi : nat) (a : list Q) :
  length (slice lo hi a) = Nat.min (hi - lo) (length a - lo).
Proof. unfold slice. rewrite length_firstn, length_skipn. reflexivity. Qed.

Lemma Qsum_uniform (v : Q) (a : list Q) :
  Forall (fun x => x == v) a ->
  Qsum a == inject_Z (Z.of_nat (length a)) * v.
Proof.
  induction 1 as [|x a Hx _ IH].
  - cbn. ring.
  - cbn [Qsum fold_right length]. fold (Qsum a).
    rewrite IH, Hx, Nat2Z.inj_succ. unfold Z.succ.
    rewrite inject_Z_plus. ring.
Qed.

(** The mean of a slice that holds only samples equal to [v] is [v]. *)
Lemma np_mean_uniform (v : Q) (a : list Q) :
  (0 < length a)%nat ->
  Forall (fun x => x == v) a ->
  exists m : Q, np_mean a = Some m /\ m == v.
Proof.
  intros Hlen Ha. destruct a as [|x a]; [cbn in Hlen; lia|].
  eexists. split; [reflexivity|].
  rewrite (Qsum_uniform v (x :: a) Ha).
  field. change 0 with (inject_Z 0). rewrite inject_Z_injective.
  cbn [length]. lia.
Qed.

Lemma slice_mean_uniform (v : Q) (lo hi : nat) (scan : list Q) :
  Forall (fun x => x == v) scan ->
  (lo < hi)%nat ->
  (hi <= length scan)%nat ->
  exists m : Q, np_mean (slice lo hi scan) = Some m /\ m == v.
Proof.
  intros Hscan Hlo Hhi. apply np_mean_uniform.
  - rewrite length_slice. lia.
  - apply Forall_slice. exact Hscan.
Qed.

(** What the scan callback stores: the samples below 3.5 as they are. *)
Lemma stored_sample_below_max (x : Q) :
  x < 3.5 -> (if Qgeb x 3.5 then 3.5 else x) = x.
Proof. intro Hx. apply Qgeb_lt in Hx. rewrite Hx. reflexivity. Qed.

(** In exact arithmetic only: for a scan of 360 samples all equal to [v],
    with [v < 3.5], the sum of [n] samples is [n*v] and its quotient by [n]
    is [v], so the four sector means are [v] and the front value is
    [1.5*v].  numpy adds and divides in binary floating point and rounds at
    each step: for the floats this says the means are [v] up to rounding,
    not that they are [v]. *)
Lemma uniform_scan_sector_means (self : RobotController)
    (ranges : list Q) (v : Q) :
  length ranges = 360%nat ->
  Forall (fun x => x == v) ranges ->
  0 <= v ->
  v < 3.5 ->
  exists (scan : list Q) (s : Snapshot),
    laserscan (robot_laserscan_callback self ranges) = Some scan /\
    sectors scan = Some s /\
    oblique_left s == v /\
    oblique_right s == v /\
    left s == v /\
    right s == v /\
    front s == 1.5 * v.
Proof.
  intros Hlen Hall _ Hmax.
  set (scan := map (fun x => if Qgeb x 3.5 then 3.5 else x) ranges).
  assert (Hscan : Forall (fun x => x == v) scan).
  { unfold scan. apply Forall_map.
    apply (Forall_impl _ (P := fun x => x == v)); [|exact Hall].
    intros x Hx. rewrite stored_sample_below_max by lra. exact Hx. }
  assert (Hslen : length scan = 360%nat)
    by (unfold scan; rewrite length_map; exact Hlen).
  unfold front_sector, oblique_sector, side_sector.
  destruct (slice_mean_uniform v 0 20 scan Hscan) as (f1 & E1 & Hf1);
    [lia | lia |].
  destruct (slice_mean_uniform v (360 - 20) 360 scan Hscan)
    as (f2 & E2 & Hf2); [lia | lia |].
  destruct (slice_mean_uniform v 0 70 scan Hscan) as (ol & E3 & Hol);
    [lia | lia |].
  destruct (slice_mean_uniform v (360 - 70) 360 scan Hscan)
    as (or & E4 & Hor); [lia | lia |].
  destruct (slice_mean_uniform v 30 (30 + 55) scan Hscan)
    as (l & E5 & Hl); [lia | lia |].
  destruct (slice_mean_uniform v (330 - 55) 330 scan Hscan)
    as (r & E6 & Hr); [lia | lia |].
  exists scan, (mkSnapshot (f1 + f2 / 2) ol or l r).
  split; [reflexivity|]. split.
  - unfold sectors, front_sector, oblique_sector, side_sector.
    rewrite E1, E2, E3, E4, E5, E6. reflexivity.
  - cbn [oblique_left oblique_right left right front].
    repeat split; try assumption.
    rewrite Hf1, Hf2. field.
Qed.

(** A slice that starts inside the scan has a mean. *)
Lemma slice_mean_exists (lo hi : nat) (scan : list Q) :
  (lo < hi)%nat ->
  (lo < length scan)%nat ->
  exists m : Q, np_mean (slice lo hi scan) = Some m.
Proof.
  intros Hhi Hlo.
  assert (Hlen : (0 < length (slice lo hi scan))%nat)
    by (rewrite length_slice; lia).
  destruct (slice lo hi scan) as [|x a]; [cbn in Hlen; lia|].
  eexists. reflexivity.
Qed.

(** C9, as the code has it.  No scan is rejected.  The scan callback
    stores a scan of any length, the empty one too, sample by sample: a
    sample below 3.5 (a negative one too) is kept as it is, a sample of 3.5
    or more becomes 3.5, and the data flag is raised.  From a stored scan
    of at least 341 samples, 360 or not, all five sector values are
    computed: the four sector values are the means of their slices, and the
    front value is the mean of [0:20] plus half the mean of [340:360]. *)
Theorem scan_is_never_rejected (self : RobotController) (ranges : list Q) :
  exists scan : list Q,
    laserscan (robot_laserscan_callback self ranges) = Some scan /\
    data_available (robot_laserscan_callback self ranges) = true /\
    length scan = length ranges /\
    (forall (i : nat) (x : Q),
        nth_error ranges i = Some x ->
        (x < 3.5 -> nth_error scan i = Some x) /\
        (3.5 <= x -> nth_error scan i = Some 3.5)) /\
    ((341 <= length ranges)%nat ->
     exists (s : Snapshot) (f1 f2 : Q),
       sectors scan = Some s /\
       np_mean (slice 0 20 scan) = Some f1 /\
       np_mean (slice 340 360 scan) = Some f2 /\
       front s = f1 + f2 / 2 /\
       np_mean (slice 0 70 scan) = Some (oblique_left s) /\
       np_mean (slice 290 360 scan) = Some (oblique_right s) /\
       np_mean (slice 30 85 scan) = Some (left s) /\
       np_mean (slice 275 330 scan) = Some (right s)).
Proof.
  set (scan := map (fun x => if Qgeb x 3.5 then 3.5 else x) ranges).
  assert (Hslen : length scan = length ranges)
    by (unfold scan; apply length_map).
  exists scan. split; [reflexivity|]. split; [reflexivity|].
  split; [exact Hslen|]. split.
  - intros i x Hi. unfold scan. rewrite nth_error_map, Hi. cbn. split.
    + intro Hx. rewrite stored_sample_below_max by exact Hx. reflexivity.
    + intro Hx. apply Qgeb_ge in Hx. rewrite Hx. reflexivity.
  - intro Hlen.
    destruct (slice_mean_exists 0 20 scan) as (f1 & E1); [lia | lia |].
    destruct (slice_mean_exists 340 360 scan) as (f2 & E2); [lia | lia |].
    destruct (slice_mean_exists 0 70 scan) as (ol & E3); [lia | lia |].
    destruct (slice_mean_exists 290 360 scan) as (or & E4); [lia | lia |].
    destruct (slice_mean_exists 30 85 scan) as (l & E5); [lia | lia |].
    destruct (slice_mean_exists 275 330 scan) as (r & E6); [lia | lia |].
    exists (mkSnapshot (f1 + f2 / 2) ol or l r), f1, f2.
    cbn [front oblique_left oblique_right left right].
    split; [|auto 8].
    unfold sectors, front_sector, oblique_sector, side_sector.
    change (360 - 20)%nat with 340%nat. change (360 - 70)%nat with 290%nat.
    change (30 + 55)%nat with 85%nat. change (330 - 55)%nat with 275%nat.
    rewrite E1, E2, E3, E4, E5, E6. reflexivity.
Qed.

(** C9, as the claim states it, fails: a scan of 359 samples, the first of
    them negative, goes through the scan callback and the next timer
    callback publishes a command computed from it. *)
Lemma short_negative_scan_is_published :
  length (-1 :: uniform_scan 358 1) <> 360%nat /\
  Exists (fun x => x < 0) (-1 :: uniform_scan 358 1) /\
  exists (msg : Twist) (self' : RobotController),
    robot_controller_callback (node_with_scan (-1 :: uniform_scan 358 1))
                              5 100
    = Some (Published msg, self') /\
    linear_x msg == 0.22 /\
    angular_z msg == 0.
Proof.
  split; [cbn; lia|]. split; [left; reflexivity|].
  eexists. eexists. split; [vm_compute; reflexivity|].
  split; reflexivity.
Qed.

(** ** The timer callback *)

(** A call to the lateral controller with a timestamp that is not after its
    last one. *)
Lemma stale_lateral_call (lat : PIDController) (err tstamp : Q) :
  tstamp - t_prev lat <= 0 ->
  control lat err tstamp = Some (None, lat).
Proof.
  intro Hdt. unfold control. apply Qltb_ge in Hdt. rewrite Hdt. reflexivity.
Qed.

(** C2.  A timer callback whose timestamp is not after the one of the
    lateral controller's last call gets [None] for the angular velocity in
    every branch; [min] then raises [TypeError] and the callback ends
    without publishing: the previous command is not sent again. *)
Theorem stale_timestamp_raises_type_error (self : RobotController)
    (now tstamp : Q) (scan : list Q) (s : Snapshot) :
  DELAY < now - start_time self ->
  data_available self = true ->
  laserscan self = Some scan ->
  sectors scan = Some s ->
  pid_ready (pid_lon self) ->
  tstamp - t_prev (pid_lat self) <= 0 ->
  exists self' : RobotController,
    robot_controller_callback self now tstamp
    = Some (Raised TypeError, self') /\
    angular_z (ctrl_msg self') = angular_z (ctrl_msg self).
Proof.
  intros Hdelay Hdata Hscan Hsec Hlon Hstale.
  unfold robot_controller_callback.
  apply Qltb_lt in Hdelay. rewrite Hdelay, Hdata, Hscan, Hsec.
  unfold control_logic.
  destruct (Qltb (oblique_left s) 0.5 || Qltb (oblique_right s) 0.5).
  - rewrite (stale_lateral_call _ _ _ Hstale). cbn. eauto.
  - destruct ((Qltb 0.5 (oblique_left s) && Qltb (oblique_left s) 1)
              || (Qltb 0.5 (oblique_right s) && Qltb (oblique_right s) 1)).
    + destruct (control_total (pid_lon self) (front s) tstamp Hlon)
        as (lin & lon' & ->).
      rewrite (stale_lateral_call _ _ _ Hstale). cbn.
      destruct lin as [lin|]; cbn; eauto.
    + rewrite (stale_lateral_call _ _ _ Hstale). cbn. eauto.
Qed.

(** The first timer callback of a node that sees 3.5 m all around, with
    [time.time()] at 100: the command (0.2, 0) is published. *)
Lemma first_tick_publishes :
  exists (msg : Twist) (self' : RobotController),
    robot_controller_callback (node_with_scan (uniform_scan 360 3.5)) 5 100
    = Some (Published msg, self') /\
    linear_x msg == 0.2 /\
    angular_z msg == 0.
Proof.
  eexists. eexists. split; [vm_compute; reflexivity|].
  split; reflexivity.
Qed.

Lemma stale_timestamp_raises_type_error_witness :
  exists self' : RobotController,
    robot_controller_callback
      (node_after
         (robot_controller_callback (node_with_scan (uniform_scan 360 3.5))
                                    5 100)
         (node_with_scan (uniform_scan 360 3.5)))
      (5 + 0.001) 100
    = Some (Raised TypeError, self') /\
    angular_z (ctrl_msg self')
    = angular_z
        (ctrl_msg
           (node_after
              (robot_controller_callback
                 (node_with_scan (uniform_scan 360 3.5)) 5 100)
              (node_with_scan (uniform_scan 360 3.5)))).
Proof.
  eapply (stale_timestamp_raises_type_error
            (node_after
               (robot_controller_callback
                  (node_with_scan (uniform_scan 360 3.5)) 5 100)
               (node_with_scan (uniform_scan 360 3.5)))
            (5 + 0.001) 100).
  - vm_compute. reflexivity.
  - vm_compute. reflexivity.
  - vm_compute. reflexivity.
  - vm_compute. reflexivity.
  - split; vm_compute; reflexivity.
  - vm_compute. discriminate.
Defined.

(** Strictly between 0.5 and 1 on the left, and not below 0.5 on the right:
    the second branch, with the linear velocity from the longitudinal
    controller fed [front] and the angular velocity from the lateral
    controller fed [left - right]. *)
Lemma fairly_away_uses_both_controllers (s : Snapshot) (tstamp : Q)
    (lat lon : PIDController) :
  0.5 < oblique_left s -> oblique_left s < 1 ->
  0.5 <= oblique_right s ->
  pid_ready lat -> pid_ready lon ->
  exists (lin ang : option Q) (lat' lon' : PIDController),
    control lon (front s) tstamp = Some (lin, lon') /\
    control lat (left s - right s) tstamp = Some (ang, lat') /\
    control_logic s tstamp lat lon
    = Some (mkDecision Caution lin ang, lat', lon').
Proof.
  intros Hlo Hhi Hr Hlat Hlon.
  destruct (control_total lon (front s) tstamp Hlon) as (lin & lon' & Hc1).
  destruct (control_total lat (left s - right s) tstamp Hlat)
    as (ang & lat' & Hc2).
  exists lin, ang, lat', lon'. split; [exact Hc1|]. split; [exact Hc2|].
  unfold control_logic.
  assert (H1 : Qltb (oblique_left s) 0.5 || Qltb (oblique_right s) 0.5
               = false).
  { apply orb_false_iff. split; apply Qltb_ge; lra. }
  assert (H2 : (Qltb 0.5 (oblique_left s) && Qltb (oblique_left s) 1)
               || (Qltb 0.5 (oblique_right s) && Qltb (oblique_right s) 1)
               = true).
  { apply fairly_away_guard. left. split; assumption. }
  rewrite H1, H2, Hc1, Hc2. reflexivity.
Qed.



Lemma py_min_le_cap (a b : Q) : py_min a b <= a.
Proof.
  unfold py_min. destruct (Qltb b a) eqn:E.
  - apply Qltb_lt in E. lra.
  - lra.
Qed.

(** X13.  Every command the timer callback publishes is within the two
    caps: its linear velocity is at most 0.22 and its angular velocity at
    most 2.84, whatever the scan, the controllers and the clocks are. *)
Lemma published_within_caps (self self' : RobotController) (now tstamp : Q)
    (msg : Twist) :
  robot_controller_callback self now tstamp = Some (Published msg, self') ->
  linear_x msg <= 0.22 /\ angular_z msg <= 2.84.
Proof.
  unfold robot_controller_callback.
  destruct (Qltb DELAY (now - start_time self)); [|discriminate].
  destruct (data_available self); [|discriminate].
  destruct (laserscan self) as [scan|]; [|discriminate].
  destruct (sectors scan) as [s|]; [|discriminate].
  destruct (control_logic s tstamp (pid_lat self) (pid_lon self))
    as [[[d l1] l2]|]; cbn; [|discriminate].
  destruct (LIN_VEL d) as [lin|]; [|discriminate].
  destruct (ANG_VEL d) as [ang|]; [|discriminate].
  intro H. inversion H; subst. cbn.
  split; apply py_min_le_cap.
Qed.

Lemma published_within_caps_witness :
  linear_x (ctrl_msg
              (node_after
                 (robot_controller_callback
                    (node_with_scan (-1 :: uniform_scan 358 1)) 5 100)
                 (node_with_scan (-1 :: uniform_scan 358 1)))) <= 0.22 /\
  angular_z (ctrl_msg
               (node_after
                  (robot_controller_callback
                     (node_with_scan (-1 :: uniform_scan 358 1)) 5 100)
                  (node_with_scan (-1 :: uniform_scan 358 1)))) <= 2.84.
Proof.
  eapply (published_within_caps
            (node_with_scan (-1 :: uniform_scan 358 1)) _ 5 100).
  vm_compute. reflexivity.
Defined.

(** ** Series of calls to one controller *)

(** What one call keeps, whatever its error and timestamp are. *)
Lemma control_step (self : PIDController) (err t : Q) :
  pid_ready self ->
  pid_integral_ok self ->
  exists (u : option Q) (self' : PIDController),
    control self err t = Some (u, self') /\
    pid_ready self' /\
    pid_integral_ok self' /\
    (kP self' = kP self /\ kI self' = kI self /\
     kD self' = kD self /\ kS self' = kS self) /\
    (t_prev self <= t_prev self' /\ t <= t_prev self') /\
    (forall x : Q,
        In x (Queue.items (err_hist self')) ->
        In x (Queue.items (err_hist self)) \/ x = err).
Proof.
  intros Hready Hsum.
  destruct (control_total self err t Hready) as (u & self' & Hcall).
  exists u, self'. split; [exact Hcall|].
  split; [exact (control_keeps_ready _ _ _ _ _ Hready Hcall)|].
  destruct (Qltb 0 (t - t_prev self)) eqn:Hdt.
  - apply Qltb_lt in Hdt.
    destruct (control_advance self err t Hready Hdt)
      as (i2 & h2 & Heq & Hcase).
    rewrite Heq in Hcall. inversion Hcall; subst; clear Hcall.
    unfold pid_integral_ok in *.
    cbn [kP kI kD kS err_int err_hist t_prev Queue.items].
    destruct Hcase as [(_ & x & Happ & Hi2) | (_ & Hh2 & Hi2)]; subst i2.
    + assert (Hs : Qsum (Queue.items (err_hist self) ++ [err])
                   == x + Qsum h2) by (rewrite Happ; reflexivity).
      rewrite Qsum_app in Hs. cbn in Hs.
      split; [lra|]. split; [auto|]. split; [split; lra|].
      intros y Hy.
      assert (Hin : In y (Queue.items (err_hist self) ++ [err]))
        by (rewrite Happ; right; exact Hy).
      apply in_app_or in Hin. destruct Hin as [Hin|[Hin|[]]]; auto.
    + subst h2. rewrite Qsum_app. cbn.
      split; [lra|]. split; [auto|]. split; [split; lra|].
      intros y Hy. apply in_app_or in Hy.
      destruct Hy as [Hy|[Hy|[]]]; auto.
  - unfold control in Hcall. rewrite Hdt in Hcall.
    inversion Hcall; subst. apply Qltb_ge in Hdt.
    split; [exact Hsum|]. split; [auto|]. split; [split; lra|]. auto.
Qed.

(** A series of calls returns and keeps what each call keeps. *)
Lemma control_seq_keeps (calls : list (Q * Q)) :
  forall self : PIDController,
    pid_ready self ->
    pid_integral_ok self ->
    exists self' : PIDController,
      control_seq self calls = Some self' /\
      pid_ready self' /\
      pid_integral_ok self' /\
      (kP self' = kP self /\ kI self' = kI self /\
       kD self' = kD self /\ kS self' = kS self) /\
      t_prev self <= t_prev self' /\
      Forall (fun c => snd c <= t_prev self') calls /\
      (forall x : Q,
          In x (Queue.items (err_hist self')) ->
          In x (Queue.items (err_hist self)) \/ In x (map fst calls)).
Proof.
  induction calls as [|[err t] calls IH]; intros self Hready Hsum.
  - exists self. cbn. destruct Hready.
    repeat split; auto; try lra.
  - destruct (control_step self err t Hready Hsum)
      as (u & s1 & Hcall & Hr1 & Hs1 & (G1 & G2 & G3 & G4) & (T1 & T2) & Hin1).
    destruct (IH s1 Hr1 Hs1)
      as (s2 & Hseq & Hr2 & Hs2 & (K1 & K2 & K3 & K4) & T3 & Hall & Hin2).
    exists s2. cbn [control_seq]. rewrite Hcall. cbn [bind].
    split; [exact Hseq|]. split; [exact Hr2|]. split; [exact Hs2|].
    split; [repeat split; congruence|].
    split; [lra|]. split.
    + constructor; [cbn; lra|exact Hall].
    + intros x Hx. cbn [map fst].
      destruct (Hin2 x Hx) as [H|H]; [|right; right; exact H].
      destruct (Hin1 x H) as [H'|H']; [left; exact H'|].
      right. left. symmetry. exact H'.
Qed.

(** X1.  A controller built by the constructor, with any gains and any
    [kS], returns from every call of any series of calls (no [put] on a
    full queue, no [get] on an empty one); its gains and [kS] stay what the
    constructor was given, its history always has room for the next error,
    and the history holds nothing but errors it was called with. *)
Theorem constructed_controller_never_blocks (kp ki kd : Q) (ks : Z)
    (calls : list (Q * Q)) :
  exists self' : PIDController,
    control_seq (PIDController_init kp ki kd ks) calls = Some self' /\
    pid_ready self' /\
    (kP self' = kp /\ kI self' = ki /\ kD self' = kd /\ kS self' = ks) /\
    (forall x : Q,
        In x (Queue.items (err_hist self')) -> In x (map fst calls)).
Proof.
  destruct (control_seq_keeps calls (PIDController_init kp ki kd ks)
              (PIDController_init_ready kp ki kd ks)
              (PIDController_init_integral_ok kp ki kd ks))
    as (self' & Hseq & Hr & _ & (K1 & K2 & K3 & K4) & _ & _ & Hin).
  exists self'. split; [exact Hseq|]. split; [exact Hr|].
  split; [auto|].
  intros x Hx. destruct (Hin x Hx) as [[]|H]. exact H.
Qed.

(** X2.  The stored timestamp never goes back: after any series of calls
    on a fresh controller it is at least 0 and at least every timestamp the
    controller was called with, in whatever order they came. *)
Theorem stored_timestamp_dominates (kp ki kd : Q) (ks : Z)
    (calls : list (Q * Q)) :
  exists self' : PIDController,
    control_seq (PIDController_init kp ki kd ks) calls = Some self' /\
    0 <= t_prev self' /\
    Forall (fun c => snd c <= t_prev self') calls.
Proof.
  destruct (control_seq_keeps calls (PIDController_init kp ki kd ks)
              (PIDController_init_ready kp ki kd ks)
              (PIDController_init_integral_ok kp ki kd ks))
    as (self' & Hseq & _ & _ & _ & Ht & Hall & _).
  exists self'. repeat split; assumption.
Qed.

Lemma lastn_lastn_app (w : nat) (a b : list Q) :
  lastn w (lastn w a ++ b) = lastn w (a ++ b).
Proof.
  unfold lastn.
  rewrite length_app, length_skipn, length_app.
  replace (length a + length b - w)%nat
    with ((length a - (length a - w) + length b - w) + (length a - w))%nat
    by lia.
  rewrite <- skipn_skipn, (skipn_app (length a - w) a b).
  replace (length a - w - length a)%nat with 0%nat by lia.
  reflexivity.
Qed.

(** Calls at increasing timestamps to a controller with [kS > 0] whose
    history holds at most [kS - 1] errors: the history afterwards is the
    last [kS - 1] of the errors held and fed. *)
Lemma advancing_calls_window (calls : list (Q * Q)) :
  forall self : PIDController,
    (0 < kS self)%Z ->
    Queue.maxsize (err_hist self) = kS self ->
    (length (Queue.items (err_hist self)) <= window self)%nat ->
    increasing_from (t_prev self) (map snd calls) ->
    exists self' : PIDController,
      control_seq self calls = Some self' /\
      Queue.items (err_hist self')
      = lastn (window self) (Queue.items (err_hist self) ++ map fst calls).
Proof.
  induction calls as [|[e t] calls IH]; intros self Hpos Hmax Hlen Hts.
  - exists self. split; [reflexivity|]. cbn [map].
    rewrite app_nil_r. unfold lastn.
    replace (length (Queue.items (err_hist self)) - window self)%nat
      with 0%nat by lia.
    reflexivity.
  - destruct Hts as [Ht Hts]. cbn [snd] in Ht. unfold window in *.
    assert (Hready : pid_ready self).
    { split; [exact Hmax|]. apply full_false_room. unfold Queue.qsize.
      rewrite Hmax. lia. }
    assert (Hdt : 0 < t - t_prev self) by lra.
    destruct (control_advance self e t Hready Hdt)
      as (i2 & h2 & Heq & Hcase).
    cbn [control_seq]. rewrite Heq. cbn [bind].
    assert (Hh2 : h2 = lastn (Z.to_nat (kS self - 1))
                             (Queue.items (err_hist self) ++ [e])
                  /\ (length h2 <= Z.to_nat (kS self - 1))%nat).
    { unfold Queue.full in Hcase. cbn [Queue.maxsize] in Hcase.
      unfold Queue.qsize in Hcase. cbn [Queue.items] in Hcase.
      rewrite length_app in Hcase. cbn [length] in Hcase.
      unfold lastn. rewrite length_app. cbn [length].
      destruct Hcase as [(Hfull & x & Happ & _) | (Hfull & -> & _)].
      - apply andb_true_iff in Hfull. destruct Hfull as [_ Hle].
        apply Z.leb_le in Hle.
        assert (Hl : length (Queue.items (err_hist self) ++ [e])
                     = S (length h2)) by (rewrite Happ; reflexivity).
        rewrite length_app in Hl. cbn [length] in Hl.
        replace (length (Queue.items (err_hist self)) + 1
                 - Z.to_nat (kS self - 1))%nat with 1%nat by lia.
        rewrite Happ. cbn [skipn]. split; [reflexivity|lia].
      - apply andb_false_iff in Hfull.
        assert (Hlt : (length (Queue.items (err_hist self)) + 1
                       <= Z.to_nat (kS self - 1))%nat).
        { destruct Hfull as [H|H];
            [apply Z.ltb_ge in H|apply Z.leb_gt in H]; lia. }
        replace (length (Queue.items (err_hist self)) + 1
                 - Z.to_nat (kS self - 1))%nat with 0%nat by lia.
        rewrite length_app. cbn [skipn length]. split; [reflexivity|lia]. }
    destruct Hh2 as [Hh2 Hlen2].
    edestruct (IH (mkPID (kP self) (kI self) (kD self) (kS self) i2
                         (e - err_prev self) e (Queue.mk (kS self) h2) t))
      as (self' & Hseq & Hitems);
      cbn [kS err_hist t_prev Queue.maxsize Queue.items];
      try assumption; try reflexivity.
    exists self'. split; [exact Hseq|].
    cbn [kS err_hist Queue.items] in Hitems. rewrite Hitems, Hh2.
    rewrite lastn_lastn_app, <- app_assoc. reflexivity.
Qed.

(** X4.  Sliding window.  After any series of calls at increasing
    timestamps on a fresh controller with [kS > 0], the history holds the
    last [kS - 1] errors fed, oldest first: an error leaves the history,
    and is taken off the integral, [kS - 1] calls after it was fed. *)
Theorem history_is_last_errors (kp ki kd : Q) (ks : Z)
    (calls : list (Q * Q)) :
  (0 < ks)%Z ->
  increasing_from 0 (map snd calls) ->
  exists self' : PIDController,
    control_seq (PIDController_init kp ki kd ks) calls = Some self' /\
    Queue.items (err_hist self')
    = lastn (Z.to_nat (ks - 1)) (map fst calls).
Proof.
  intros Hks Hts.
  destruct (advancing_calls_window calls (PIDController_init kp ki kd ks))
    as (self' & Hseq & Hitems);
    try assumption; try reflexivity.
  { cbn. lia. }
  exists self'. split; [exact Hseq|].
  unfold window in Hitems. cbn [PIDController_init kS err_hist Queue.items]
    in Hitems. cbn [app] in Hitems.
  exact Hitems.
Qed.

Lemma history_is_last_errors_witness :
  exists self' : PIDController,
    control_seq (PIDController_init 0.22 0.01 0.3 3)
                [(1, 1); (-2, 2); (4, 3); (1.5, 4)] = Some self' /\
    Queue.items (err_hist self')
    = lastn (Z.to_nat (3 - 1)) (map fst [(1, 1); (-2, 2); (4, 3); (1.5, 4)]).
Proof.
  apply (history_is_last_errors 0.22 0.01 0.3 3
           [(1, 1); (-2, 2); (4, 3); (1.5, 4)]).
  - lia.
  - cbn. repeat split.
Defined.




(** X6.  The first call.  A fresh controller stores the timestamp 0, so
    its first call, at any timestamp [t > 0], takes [dt] to be [t]
    itself: it returns [kP*e + kI*e*t + kD*e/t], or [kP*e + kD*e/t] when
    [kS] is 1 (the error leaves the history before the output is computed).
    A first call at [t <= 0] returns nothing. *)
Theorem first_call_uses_timestamp_as_dt (kp ki kd e t : Q) (ks : Z) :
  (0 < t ->
   exists (u : Q) (self' : PIDController),
     control (PIDController_init kp ki kd ks) e t = Some (Some u, self') /\
     (ks <> 1%Z -> u == kp * e + ki * e * t + kd * e / t) /\
     (ks = 1%Z -> u == kp * e + kd * e / t)) /\
  (t <= 0 ->
   control (PIDController_init kp ki kd ks) e t
   = Some (None, PIDController_init kp ki kd ks)).
Proof.
  split.
  - intro Ht.
    assert (Hdt : 0 < t - t_prev (PIDController_init kp ki kd ks))
      by (cbn [PIDController_init t_prev]; lra).
    destruct (control_advance (PIDController_init kp ki kd ks) e t
                (PIDController_init_ready kp ki kd ks) Hdt)
      as (i2 & h2 & Heq & Hcase).
    eexists. eexists. split; [exact Heq|].
    cbn [PIDController_init kP kI kD kS err_int err_prev err_hist t_prev
         Queue.items app] in *.
    unfold Queue.full in Hcase. cbn [Queue.maxsize] in Hcase.
    unfold Queue.qsize in Hcase. cbn [Queue.items length] in Hcase.
    destruct Hcase as [(Hfull & x & Happ & ->) | (Hfull & _ & ->)].
    + apply andb_true_iff in Hfull. destruct Hfull as [Hpos Hle].
      apply Z.ltb_lt in Hpos. apply Z.leb_le in Hle.
      inversion Happ; subst x h2.
      split; [intro Hne; exfalso; lia|].
      intros _. field. lra.
    + apply andb_false_iff in Hfull.
      split; [|intro H1; exfalso;
               destruct Hfull as [H|H];
               [apply Z.ltb_ge in H|apply Z.leb_gt in H]; lia].
      intros _. field. lra.
  - intro Ht. unfold control.
    assert (Hdt : Qltb 0 (t - t_prev (PIDController_init kp ki kd ks))
                  = false)
      by (apply Qltb_ge; cbn [PIDController_init t_prev]; lra).
    rewrite Hdt. reflexivity.
Qed.

(** ** Sector values of any scan *)

(** A scan of at least 341 samples fills all six slices. *)
Lemma sectors_defined (scan : list Q) :
  (341 <= length scan)%nat ->
  exists f1 f2 ol or l r : Q,
    np_mean (slice 0 20 scan) = Some f1 /\
    np_mean (slice 340 360 scan) = Some f2 /\
    np_mean (slice 0 70 scan) = Some ol /\
    np_mean (slice 290 360 scan) = Some or /\
    np_mean (slice 30 85 scan) = Some l /\
    np_mean (slice 275 330 scan) = Some r /\
    sectors scan = Some (mkSnapshot (f1 + f2 / 2) ol or l r).
Proof.
  intro Hlen.
  destruct (slice_mean_exists 0 20 scan) as (f1 & E1); [lia | lia |].
  destruct (slice_mean_exists 340 360 scan) as (f2 & E2); [lia | lia |].
  destruct (slice_mean_exists 0 70 scan) as (ol & E3); [lia | lia |].
  destruct (slice_mean_exists 290 360 scan) as (or & E4); [lia | lia |].
  destruct (slice_mean_exists 30 85 scan) as (l & E5); [lia | lia |].
  destruct (slice_mean_exists 275 330 scan) as (r & E6); [lia | lia |].
  exists f1, f2, ol, or, l, r. repeat (split; [assumption|]).
  unfold sectors, front_sector, oblique_sector, side_sector.
  change (360 - 20)%nat with 340%nat. change (360 - 70)%nat with 290%nat.
  change (30 + 55)%nat with 85%nat. change (330 - 55)%nat with 275%nat.
  rewrite E1, E2, E3, E4, E5, E6. reflexivity.
Qed.

(** X7.  The sector values exist exactly for scans of at least 341
    samples: a shorter scan leaves the slice [340:360] empty, and the mean
    of an empty slice is nan. *)
Theorem sectors_defined_iff (scan : list Q) :
  (exists s : Snapshot, sectors scan = Some s) <-> (341 <= length scan)%nat.
Proof.
  split.
  - intros [s Hs].
    destruct (le_lt_dec 341 (length scan)) as [Hle|Hlt]; [exact Hle|].
    exfalso. unfold sectors, front_sector in Hs.
    assert (Hempty : slice (360 - 20) 360 scan = []).
    { unfold slice. rewrite skipn_all2 by (cbn; lia).
      apply firstn_nil. }
    rewrite Hempty in Hs.
    destruct (np_mean (slice 0 20 scan)); discriminate.
  - intro Hlen.
    destruct (sectors_defined scan Hlen)
      as (f1 & f2 & ol & or & l & r & _ & _ & _ & _ & _ & _ & Hs).
    eauto.
Qed.

Lemma Qsum_le (hi : Q) (a : list Q) :
  Forall (fun x => x <= hi) a ->
  Qsum a <= inject_Z (Z.of_nat (length a)) * hi.
Proof.
  induction 1 as [|x a Hhi _ IH].
  - unfold Qsum. cbn [length fold_right].
    change (inject_Z (Z.of_nat 0)) with 0. lra.
  - cbn [Qsum fold_right length]. fold (Qsum a).
    rewrite Nat2Z.inj_succ. unfold Z.succ. rewrite inject_Z_plus.
    change (inject_Z 1) with 1. lra.
Qed.

Lemma Qsum_ge (lo : Q) (a : list Q) :
  Forall (fun x => lo <= x) a ->
  inject_Z (Z.of_nat (length a)) * lo <= Qsum a.
Proof.
  induction 1 as [|x a Hlo _ IH].
  - unfold Qsum. cbn [length fold_right].
    change (inject_Z (Z.of_nat 0)) with 0. lra.
  - cbn [Qsum fold_right length]. fold (Qsum a).
    rewrite Nat2Z.inj_succ. unfold Z.succ. rewrite inject_Z_plus.
    change (inject_Z 1) with 1. lra.
Qed.

Lemma np_mean_positive_count (x : Q) (a : list Q) :
  0 < inject_Z (Z.of_nat (length (x :: a))).
Proof.
  change 0 with (inject_Z 0). rewrite <- Zlt_Qlt. cbn [length]. lia.
Qed.

(** A mean is at most any upper bound of its samples ... *)
Lemma np_mean_le (hi m : Q) (a : list Q) :
  Forall (fun x => x <= hi) a -> np_mean a = Some m -> m <= hi.
Proof.
  intros Ha Hm. pose proof (Qsum_le hi a Ha) as Hhi.
  destruct a as [|x a]; [discriminate|].
  cbn [np_mean] in Hm. inversion Hm; subst m; clear Hm.
  apply Qle_shift_div_r; [exact (np_mean_positive_count x a)|].
  rewrite Qmult_comm. exact Hhi.
Qed.

(** ... and at least any lower bound of them. *)
Lemma np_mean_ge (lo m : Q) (a : list Q) :
  Forall (fun x => lo <= x) a -> np_mean a = Some m -> lo <= m.
Proof.
  intros Ha Hm. pose proof (Qsum_ge lo a Ha) as Hlo.
  destruct a as [|x a]; [discriminate|].
  cbn [np_mean] in Hm. inversion Hm; subst m; clear Hm.
  apply Qle_shift_div_l; [exact (np_mean_positive_count x a)|].
  rewrite Qmult_comm. exact Hlo.
Qed.

(** The stored samples are at most 3.5, and not below a lower bound of the
    raw samples that is itself at most 3.5. *)
Lemma stored_scan_bounds (ranges : list Q) :
  Forall (fun x => x <= 3.5)
         (map (fun x => if Qgeb x 3.5 then 3.5 else x) ranges) /\
  forall lo : Q,
    lo <= 3.5 ->
    Forall (fun x => lo <= x) ranges ->
    Forall (fun x => lo <= x)
           (map (fun x => if Qgeb x 3.5 then 3.5 else x) ranges).
Proof.
  split.
  - apply Forall_map. apply Forall_forall. intros x _.
    destruct (Qgeb x 3.5) eqn:E; [lra|]. apply Qgeb_lt in E. lra.
  - intros lo Hlo Hall. apply Forall_map.
    apply (Forall_impl _ (P := fun x => lo <= x)); [|exact Hall].
    intros x Hx. destruct (Qgeb x 3.5); assumption.
Qed.

(** X8.  Whatever the raw ranges are, the sector values computed from the
    stored scan are capped: the four sector means are at most 3.5 and the
    front value at most 5.25 (one and a half times the cap); and when no
    raw sample is negative none of the five values is. *)
Theorem sector_values_are_bounded (self : RobotController)
    (ranges : list Q) :
  (341 <= length ranges)%nat ->
  exists (scan : list Q) (s : Snapshot),
    laserscan (robot_laserscan_callback self ranges) = Some scan /\
    sectors scan = Some s /\
    (oblique_left s <= 3.5 /\ oblique_right s <= 3.5 /\
     left s <= 3.5 /\ right s <= 3.5 /\ front s <= 5.25) /\
    (Forall (fun x => 0 <= x) ranges ->
     0 <= oblique_left s /\ 0 <= oblique_right s /\
     0 <= left s /\ 0 <= right s /\ 0 <= front s).
Proof.
  intro Hlen.
  set (scan := map (fun x => if Qgeb x 3.5 then 3.5 else x) ranges).
  assert (Hslen : (341 <= length scan)%nat)
    by (unfold scan; rewrite length_map; exact Hlen).
  destruct (sectors_defined scan Hslen)
    as (f1 & f2 & ol & or & l & r & E1 & E2 & E3 & E4 & E5 & E6 & Hs).
  destruct (stored_scan_bounds ranges) as [Hhi Hlo]. fold scan in Hhi, Hlo.
  exists scan, (mkSnapshot (f1 + f2 / 2) ol or l r).
  split; [reflexivity|]. split; [exact Hs|].
  cbn [oblique_left oblique_right left right front].
  split.
  - pose proof (np_mean_le _ _ _ (Forall_slice _ 0 20 _ Hhi) E1).
    pose proof (np_mean_le _ _ _ (Forall_slice _ 340 360 _ Hhi) E2).
    pose proof (np_mean_le _ _ _ (Forall_slice _ 0 70 _ Hhi) E3).
    pose proof (np_mean_le _ _ _ (Forall_slice _ 290 360 _ Hhi) E4).
    pose proof (np_mean_le _ _ _ (Forall_slice _ 30 85 _ Hhi) E5).
    pose proof (np_mean_le _ _ _ (Forall_slice _ 275 330 _ Hhi) E6).
    repeat split; try assumption.
    setoid_replace (f2 / 2) with (f2 * (1 # 2))
      by (unfold Qdiv; reflexivity).
    lra.
  - intro Hpos.
    assert (H0 : Forall (fun x => 0 <= x) scan)
      by (apply Hlo; [lra|exact Hpos]).
    pose proof (np_mean_ge _ _ _ (Forall_slice _ 0 20 _ H0) E1).
    pose proof (np_mean_ge _ _ _ (Forall_slice _ 340 360 _ H0) E2).
    pose proof (np_mean_ge _ _ _ (Forall_slice _ 0 70 _ H0) E3).
    pose proof (np_mean_ge _ _ _ (Forall_slice _ 290 360 _ H0) E4).
    pose proof (np_mean_ge _ _ _ (Forall_slice _ 30 85 _ H0) E5).
    pose proof (np_mean_ge _ _ _ (Forall_slice _ 275 330 _ H0) E6).
    repeat split; try assumption.
    setoid_replace (f2 / 2) with (f2 * (1 # 2))
      by (unfold Qdiv; reflexivity).
    lra.
Qed.

Lemma sector_values_are_bounded_witness :
  exists (scan : list Q) (s : Snapshot),
    laserscan (robot_laserscan_callback (RobotController_init 0)
                 (-1 :: 7 :: uniform_scan 358 1)) = Some scan /\
    sectors scan = Some s /\
    (oblique_left s <= 3.5 /\ oblique_right s <= 3.5 /\
     left s <= 3.5 /\ right s <= 3.5 /\ front s <= 5.25) /\
    (Forall (fun x => 0 <= x) (-1 :: 7 :: uniform_scan 358 1) ->
     0 <= oblique_left s /\ 0 <= oblique_right s /\
     0 <= left s /\ 0 <= right s /\ 0 <= front s).
Proof.
  apply (sector_values_are_bounded (RobotController_init 0)
           (-1 :: 7 :: uniform_scan 358 1)).
  cbn. lia.
Defined.

(** ** The timer callback, further *)

(** A call with a timestamp after the stored one returns an output and
    stores the timestamp. *)
Lemma control_advancing (self : PIDController) (err t : Q) :
  pid_ready self ->
  t_prev self < t ->
  exists (u : Q) (self' : PIDController),
    control self err t = Some (Some u, self') /\ t_prev self' = t.
Proof.
  intros Hready Ht.
  assert (Hdt : 0 < t - t_prev self) by lra.
  destruct (control_advance self err t Hready Hdt) as (i2 & h2 & Heq & _).
  eexists. eexists. split; [exact Heq|]. reflexivity.
Qed.

(** X10.  Once the delay is over and a scan of at least 341 samples is
    stored, a timer callback whose timestamp is after the last one of both
    controllers publishes a command: it raises nothing, the published
    message is the node's [ctrl_msg], the lateral controller has stored the
    timestamp, and the scan is left as it was. *)
Theorem advancing_tick_publishes (self : RobotController)
    (now tstamp : Q) (scan : list Q) :
  DELAY < now - start_time self ->
  data_available self = true ->
  laserscan self = Some scan ->
  (341 <= length scan)%nat ->
  pid_ready (pid_lat self) ->
  pid_ready (pid_lon self) ->
  t_prev (pid_lat self) < tstamp ->
  t_prev (pid_lon self) < tstamp ->
  exists (msg : Twist) (self' : RobotController),
    robot_controller_callback self now tstamp
    = Some (Published msg, self') /\
    ctrl_msg self' = msg /\
    t_prev (pid_lat self') = tstamp /\
    laserscan self' = Some scan.
Proof.
  intros Hdelay Hdata Hscan Hlen Hlat Hlon Htlat Htlon.
  destruct (sectors_defined scan Hlen)
    as (f1 & f2 & ol & or & l & r & _ & _ & _ & _ & _ & _ & Hs).
  unfold robot_controller_callback.
  apply Qltb_lt in Hdelay. rewrite Hdelay, Hdata, Hscan, Hs.
  unfold control_logic.
  cbn [oblique_left oblique_right left right front].
  destruct (Qltb ol 0.5 || Qltb or 0.5).
  - destruct (control_advancing (pid_lat self) (16 * (l - r)) tstamp
                Hlat Htlat) as (u & lat' & -> & Ht).
    cbn. eexists. eexists. split; [reflexivity|]. cbn. auto.
  - destruct ((Qltb 0.5 ol && Qltb ol 1) || (Qltb 0.5 or && Qltb or 1)).
    + destruct (control_advancing (pid_lon self) (f1 + f2 / 2) tstamp
                  Hlon Htlon) as (v & lon' & -> & _).
      destruct (control_advancing (pid_lat self) (l - r) tstamp
                  Hlat Htlat) as (u & lat' & -> & Ht).
      cbn. eexists. eexists. split; [reflexivity|]. cbn. auto.
    + destruct (control_advancing (pid_lat self) (l - r) tstamp
                  Hlat Htlat) as (u & lat' & -> & Ht).
      cbn. eexists. eexists. split; [reflexivity|]. cbn. auto.
Qed.

Lemma advancing_tick_publishes_witness :
  exists (msg : Twist) (self' : RobotController),
    robot_controller_callback
      (node_with_scan (-1 :: 7 :: uniform_scan 358 1)) 5 100
    = Some (Published msg, self') /\
    ctrl_msg self' = msg /\
    t_prev (pid_lat self') = 100 /\
    laserscan self' = Some (-1 :: 3.5 :: uniform_scan 358 1).
Proof.
  apply (advancing_tick_publishes
           (node_with_scan (-1 :: 7 :: uniform_scan 358 1)) 5 100
           (-1 :: 3.5 :: uniform_scan 358 1)).
  - reflexivity.
  - reflexivity.
  - reflexivity.
  - cbn. lia.
  - split; reflexivity.
  - split; reflexivity.
  - reflexivity.
  - reflexivity.
Defined.


(** The sector values of a stored scan of 360 samples all equal to [v]. *)
Lemma sectors_of_uniform (v : Q) (scan : list Q) :
  length scan = 360%nat ->
  Forall (fun x => x == v) scan ->
  exists f1 f2 ol or l r : Q,
    sectors scan = Some (mkSnapshot (f1 + f2 / 2) ol or l r) /\
    f1 == v /\ f2 == v /\ ol == v /\ or == v /\ l == v /\ r == v.
Proof.
  intros Hlen Hscan.
  destruct (slice_mean_uniform v 0 20 scan Hscan) as (f1 & E1 & Hf1);
    [lia | lia |].
  destruct (slice_mean_uniform v 340 360 scan Hscan) as (f2 & E2 & Hf2);
    [lia | lia |].
  destruct (slice_mean_uniform v 0 70 scan Hscan) as (ol & E3 & Hol);
    [lia | lia |].
  destruct (slice_mean_uniform v 290 360 scan Hscan) as (or & E4 & Hor);
    [lia | lia |].
  destruct (slice_mean_uniform v 30 85 scan Hscan) as (l & E5 & Hl);
    [lia | lia |].
  destruct (slice_mean_uniform v 275 330 scan Hscan) as (r & E6 & Hr);
    [lia | lia |].
  exists f1, f2, ol, or, l, r. split; [|auto 7].
  unfold sectors, front_sector, oblique_sector, side_sector.
  change (360 - 20)%nat with 340%nat. change (360 - 70)%nat with 290%nat.
  change (30 + 55)%nat with 85%nat. change (330 - 55)%nat with 275%nat.
  rewrite E1, E2, E3, E4, E5, E6. reflexivity.
Qed.

(** X12.  Open space.  For a node started at clock time 0 whose one scan
    has 360 samples, every one of them 3.5 or more (whatever the values
    are), the first timer callback after the delay, at any timestamp above
    0, publishes the cruising linear velocity 0.2 and a zero angular
    velocity. *)
Theorem open_space_cruises_straight (ranges : list Q) (now tstamp : Q) :
  length ranges = 360%nat ->
  Forall (fun x => 3.5 <= x) ranges ->
  DELAY < now ->
  0 < tstamp ->
  exists (msg : Twist) (self' : RobotController),
    robot_controller_callback (node_with_scan ranges) now tstamp
    = Some (Published msg, self') /\
    linear_x msg = 0.2 /\
    angular_z msg == 0.
Proof.
  intros Hlen Hfar Hdelay Ht.
  set (scan := map (fun x => if Qgeb x 3.5 then 3.5 else x) ranges).
  assert (Hscan : Forall (fun x => x == 3.5) scan).
  { unfold scan. apply Forall_map.
    apply (Forall_impl _ (P := fun x => 3.5 <= x)); [|exact Hfar].
    intros x Hx. apply Qgeb_ge in Hx. rewrite Hx. reflexivity. }
  assert (Hslen : length scan = 360%nat)
    by (unfold scan; rewrite length_map; exact Hlen).
  destruct (sectors_of_uniform 3.5 scan Hslen Hscan)
    as (f1 & f2 & ol & or & l & r & Hs & Hf1 & Hf2 & Hol & Hor & Hl & Hr).
  unfold robot_controller_callback, node_with_scan, robot_laserscan_callback.
  cbn [start_time data_available laserscan pid_lat pid_lon ctrl_msg
       RobotController_init].
  fold scan.
  assert (Hd : Qltb DELAY (now - 0) = true) by (apply Qltb_lt; lra).
  rewrite Hd, Hs. unfold control_logic.
  cbn [oblique_left oblique_right left right front].
  assert (G1 : Qltb ol 0.5 || Qltb or 0.5 = false).
  { apply orb_false_iff. split; apply Qltb_ge; lra. }
  assert (G2 : (Qltb 0.5 ol && Qltb ol 1) || (Qltb 0.5 or && Qltb or 1)
               = false).
  { apply orb_false_iff. split; apply andb_false_iff; right;
      apply Qltb_ge; lra. }
  rewrite G1, G2.
  assert (Hdt : 0 < tstamp - t_prev (PIDController_init 0.22 0.01 0.3 10))
    by (cbn [PIDController_init t_prev]; lra).
  destruct (control_advance (PIDController_init 0.22 0.01 0.3 10) (l - r)
              tstamp (PIDController_init_ready _ _ _ _) Hdt)
    as (i2 & h2 & Heq & Hcase).
  rewrite Heq. cbn [bind ret LIN_VEL ANG_VEL].
  eexists. eexists. split; [reflexivity|].
  cbn [set_ctrl_msg set_pids ctrl_msg linear_x angular_z].
  split; [reflexivity|].
  cbn [PIDController_init kP kI kD kS err_int err_prev err_hist t_prev
       Queue.items app] in *.
  assert (Hi2 : i2 == 0 + (l - r)).
  { destruct Hcase as [(Hfull & _) | (_ & _ & ->)]; [|reflexivity].
    vm_compute in Hfull. discriminate. }
  assert (Hu : 0.22 * (l - r) + 0.01 * i2 * (tstamp - 0)
               + 0.3 * (l - r - 0) / (tstamp - 0) == 0).
  { rewrite Hi2, Hl, Hr. field. lra. }
  unfold clamp_angular.
  destruct (py_min_cases 2.84 (0.22 * (l - r) + 0.01 * i2 * (tstamp - 0)
                               + 0.3 * (l - r - 0) / (tstamp - 0)))
    as (_ & Hpass & _).
  rewrite Hpass; [exact Hu|]. rewrite Hu. lra.
Qed.

Lemma open_space_cruises_straight_witness :
  exists (msg : Twist) (self' : RobotController),
    robot_controller_callback (node_with_scan (uniform_scan 360 9)) 5 100
    = Some (Published msg, self') /\
    linear_x msg = 0.2 /\
    angular_z msg == 0.
Proof.
  apply (open_space_cruises_straight (uniform_scan 360 9) 5 100).
  - reflexivity.
  - apply Forall_forall. intros x Hx.
    apply repeat_spec in Hx. subst x. unfold Qle. cbn. lia.
  - reflexivity.
  - reflexivity.
Defined.

(** ** The node through any series of callbacks *)






(** With both timestamps advancing, the control logic gives two numbers. *)
Lemma advancing_logic_gives_numbers (s : Snapshot) (tstamp : Q)
    (lat lon : PIDController) :
  pid_ready lat ->
  pid_ready lon ->
  t_prev lat < tstamp ->
  t_prev lon < tstamp ->
  exists (d : Decision) (lat' lon' : PIDController) (lin ang : Q),
    control_logic s tstamp lat lon = Some (d, lat', lon') /\
    LIN_VEL d = Some lin /\
    ANG_VEL d = Some ang.
Proof.
  intros Hlat Hlon Htlat Htlon. unfold control_logic.
  destruct (Qltb (oblique_left s) 0.5 || Qltb (oblique_right s) 0.5).
  - destruct (control_advancing lat (16 * (left s - right s)) tstamp
                Hlat Htlat) as (u & lat' & -> & _).
    cbn. do 5 eexists. split; [reflexivity|]. split; reflexivity.
  - destruct ((Qltb 0.5 (oblique_left s) && Qltb (oblique_left s) 1)
              || (Qltb 0.5 (oblique_right s) && Qltb (oblique_right s) 1)).
    + destruct (control_advancing lon (front s) tstamp Hlon Htlon)
        as (v & lon' & -> & _).
      destruct (control_advancing lat (left s - right s) tstamp Hlat Htlat)
        as (u & lat' & -> & _).
      cbn. do 5 eexists. split; [reflexivity|]. split; reflexivity.
    + destruct (control_advancing lat (left s - right s) tstamp Hlat Htlat)
        as (u & lat' & -> & _).
      cbn. do 5 eexists. split; [reflexivity|]. split; reflexivity.
Qed.

(** X15.  For a node whose stored scan has at least 341 samples (so that
    every sector slice, and the scan whose minimum is printed, is not
    empty), the only way the timer callback raises is a timestamp that does
    not advance: when it raises, the timestamp is not after the one stored
    by the lateral controller, or not after the one stored by the
    longitudinal controller. *)
Theorem raises_only_on_stale_timestamp (self self' : RobotController)
    (now tstamp : Q) (scan : list Q) (e : PyError) :
  laserscan self = Some scan ->
  (341 <= length scan)%nat ->
  pid_ready (pid_lat self) ->
  pid_ready (pid_lon self) ->
  robot_controller_callback self now tstamp = Some (Raised e, self') ->
  tstamp <= t_prev (pid_lat self) \/ tstamp <= t_prev (pid_lon self).
Proof.
  intros Hscan Hlen Hlat Hlon Hcall.
  destruct (Qlt_le_dec (t_prev (pid_lat self)) tstamp) as [Htlat|Htlat];
    [|left; exact Htlat].
  destruct (Qlt_le_dec (t_prev (pid_lon self)) tstamp) as [Htlon|Htlon];
    [|right; exact Htlon].
  exfalso. unfold robot_controller_callback in Hcall.
  destruct (Qltb DELAY (now - start_time self)); [|discriminate].
  destruct (data_available self); [|discriminate].
  rewrite Hscan in Hcall.
  destruct (sectors scan) as [s|]; [|discriminate].
  destruct (advancing_logic_gives_numbers s tstamp _ _ Hlat Hlon Htlat Htlon)
    as (d & lat' & lon' & lin & ang & Hlogic & Hlin & Hang).
  rewrite Hlogic in Hcall. cbn in Hcall. rewrite Hlin, Hang in Hcall.
  discriminate.
Qed.

Lemma raises_only_on_stale_timestamp_witness :
  100 <= t_prev (pid_lat
                   (node_after
                      (robot_controller_callback
                         (node_with_scan (uniform_scan 360 3.5)) 5 100)
                      (node_with_scan (uniform_scan 360 3.5)))) \/
  100 <= t_prev (pid_lon
                   (node_after
                      (robot_controller_callback
                         (node_with_scan (uniform_scan 360 3.5)) 5 100)
                      (node_with_scan (uniform_scan 360 3.5)))).
Proof.
  eapply (raises_only_on_stale_timestamp
            (node_after
               (robot_controller_callback
                  (node_with_scan (uniform_scan 360 3.5)) 5 100)
               (node_with_scan (uniform_scan 360 3.5)))
            _ (5 + 0.001) 100 (uniform_scan 360 3.5) _).
  - vm_compute. reflexivity.
  - cbn. lia.
  - split; vm_compute; reflexivity.
  - split; vm_compute; reflexivity.
  - vm_compute. reflexivity.
Defined.

(** ** Saturation, further *)

Lemma py_min_monotone (a b b' : Q) : b <= b' -> py_min a b <= py_min a b'.
Proof.
  intro H. unfold py_min.
  destruct (Qltb b a) eqn:E1, (Qltb b' a) eqn:E2;
    try apply Qltb_lt in E1; try apply Qltb_ge in E1;
    try apply Qltb_lt in E2; try apply Qltb_ge in E2; lra.
Qed.

(** X16.  The two caps are monotone (a larger raw velocity never gives a
    smaller command) and idempotent (capping a capped velocity changes
    nothing). *)
Theorem clamp_is_monotone_and_idempotent (v v' : Q) :
  v <= v' ->
  (clamp_linear v <= clamp_linear v' /\
   clamp_angular v <= clamp_angular v') /\
  (clamp_linear (clamp_linear v) = clamp_linear v /\
   clamp_angular (clamp_angular v) = clamp_angular v).
Proof.
  intro H. unfold clamp_linear, clamp_angular.
  split; [split; apply py_min_monotone; exact H|].
  split; unfold py_min.
  - destruct (Qltb v 0.22) eqn:E; [rewrite E; reflexivity|reflexivity].
  - destruct (Qltb v 2.84) eqn:E; [rewrite E; reflexivity|reflexivity].
Qed.

Lemma clamp_is_monotone_and_idempotent_witness :
  (clamp_linear (-1) <= clamp_linear 3 /\
   clamp_angular (-1) <= clamp_angular 3) /\
  (clamp_linear (clamp_linear (-1)) = clamp_linear (-1) /\
   clamp_angular (clamp_angular (-1)) = clamp_angular (-1)).
Proof.
  apply (clamp_is_monotone_and_idempotent (-1) 3).
  unfold Qle. cbn. lia.
Defined.

(** ** Which samples the command depends on *)

Lemma slice_app_l (lo hi : nat) (a b : list Q) :
  (lo <= hi <= length a)%nat -> slice lo hi (a ++ b) = slice lo hi a.
Proof.
  intro H. unfold slice.
  rewrite skipn_app, firstn_app, length_skipn.
  replace (lo - length a)%nat with 0%nat by lia.
  replace (hi - lo - (length a - lo))%nat with 0%nat by lia.
  cbn [skipn firstn]. apply app_nil_r.
Qed.

Lemma slice_app_r (lo hi : nat) (a b : list Q) :
  (length a <= lo)%nat ->
  slice lo hi (a ++ b) = slice (lo - length a) (hi - length a) b.
Proof.
  intro H. unfold slice.
  rewrite skipn_app, skipn_all2 by exact H. cbn [app].
  replace (hi - length a - (lo - length a))%nat with (hi - lo)%nat by lia.
  reflexivity.
Qed.

(** The sector values read the first 85 and the last 85 samples of a scan
    of 360 and nothing in between. *)
Lemma sectors_ignore_rear (a r r' c : list Q) :
  length a = 85%nat ->
  length r = 190%nat ->
  length r' = 190%nat ->
  sectors (a ++ r ++ c) = sectors (a ++ r' ++ c).
Proof.
  intros Ha Hr Hr'.
  unfold sectors, front_sector, oblique_sector, side_sector.
  change (360 - 20)%nat with 340%nat. change (360 - 70)%nat with 290%nat.
  change (30 + 55)%nat with 85%nat. change (330 - 55)%nat with 275%nat.
  rewrite !(slice_app_l 0 20 a), !(slice_app_l 0 70 a),
    !(slice_app_l 30 85 a) by lia.
  rewrite !(slice_app_r 340 360 a), !(slice_app_r 290 360 a),
    !(slice_app_r 275 330 a) by lia.
  rewrite Ha.
  rewrite (slice_app_r _ _ r), (slice_app_r _ _ r),
    (slice_app_r _ _ r) by lia.
  rewrite (slice_app_r _ _ r'), (slice_app_r _ _ r'),
    (slice_app_r _ _ r') by lia.
  rewrite Hr, Hr'. reflexivity.
Qed.

(** X17.  Blind rear.  Of a scan of 360 samples only the first 85 and the
    last 85 reach the control logic: two scans that differ only in samples
    85 to 274 make the timer callback do the same thing towards the
    outside (the same message published, or the same exception). *)
Theorem rear_samples_are_ignored (self : RobotController)
    (a r r' c : list Q) (now tstamp : Q) :
  length a = 85%nat ->
  length r = 190%nat ->
  length r' = 190%nat ->
  option_map fst
    (robot_controller_callback
       (robot_laserscan_callback self (a ++ r ++ c)) now tstamp)
  = option_map fst
      (robot_controller_callback
         (robot_laserscan_callback self (a ++ r' ++ c)) now tstamp).
Proof.
  intros Ha Hr Hr'.
  unfold robot_controller_callback, robot_laserscan_callback.
  cbn [start_time data_available laserscan pid_lat pid_lon].
  rewrite !map_app.
  rewrite (sectors_ignore_rear _ _
             (map (fun x => if Qgeb x 3.5 then 3.5 else x) r') _)
    by (rewrite ?length_map; assumption).
  destruct (Qltb DELAY (now - start_time self)); [|reflexivity].
  destruct (sectors _) as [s|]; [|reflexivity].
  destruct (control_logic s tstamp (pid_lat self) (pid_lon self))
    as [[[d l1] l2]|]; [|reflexivity].
  cbn. destruct (LIN_VEL d); [|reflexivity].
  destruct (ANG_VEL d); reflexivity.
Qed.

Lemma rear_samples_are_ignored_witness :
  option_map fst
    (robot_controller_callback
       (robot_laserscan_callback (RobotController_init 0)
          (uniform_scan 85 1 ++ uniform_scan 190 0.1 ++ uniform_scan 85 1))
       5 100)
  = option_map fst
      (robot_controller_callback
         (robot_laserscan_callback (RobotController_init 0)
            (uniform_scan 85 1 ++ uniform_scan 190 3 ++ uniform_scan 85 1))
         5 100).
Proof.
  apply (rear_samples_are_ignored (RobotController_init 0)
           (uniform_scan 85 1) (uniform_scan 190 0.1) (uniform_scan 190 3)
           (uniform_scan 85 1) 5 100);
    apply repeat_length.
Defined.

(** ** The branches with a constant speed, end to end *)

(** X18.  With the delay over, a stored scan that has sector values and a
    timestamp after the lateral controller's last one, the timer callback
    publishes the linear velocity 0.005 when an oblique distance is below
    0.5, and 0.2 when both are 1 or more; in both cases the longitudinal
    controller is not touched, so its stored timestamp, and whether it has
    room, play no part. *)
Theorem constant_speed_branches_publish (self : RobotController)
    (now tstamp : Q) (scan : list Q) (s : Snapshot) :
  DELAY < now - start_time self ->
  data_available self = true ->
  laserscan self = Some scan ->
  sectors scan = Some s ->
  pid_ready (pid_lat self) ->
  t_prev (pid_lat self) < tstamp ->
  (oblique_left s < 0.5 \/ oblique_right s < 0.5 ->
   exists (msg : Twist) (self' : RobotController),
     robot_controller_callback self now tstamp
     = Some (Published msg, self') /\
     linear_x msg = 0.005 /\
     pid_lon self' = pid_lon self) /\
  (1 <= oblique_left s -> 1 <= oblique_right s ->
   exists (msg : Twist) (self' : RobotController),
     robot_controller_callback self now tstamp
     = Some (Published msg, self') /\
     linear_x msg = 0.2 /\
     pid_lon self' = pid_lon self).
Proof.
  intros Hdelay Hdata Hscan Hs Hlat Ht.
  apply Qltb_lt in Hdelay.
  unfold robot_controller_callback. rewrite Hdelay, Hdata, Hscan, Hs.
  unfold control_logic. split.
  - intro Hclose. apply too_close_guard in Hclose. rewrite Hclose.
    destruct (control_advancing (pid_lat self) (16 * (left s - right s))
                tstamp Hlat Ht) as (u & lat' & -> & _).
    cbn. eexists. eexists. split; [reflexivity|]. cbn. split; reflexivity.
  - intros Hl Hr.
    assert (G1 : Qltb (oblique_left s) 0.5 || Qltb (oblique_right s) 0.5
                 = false).
    { apply orb_false_iff. split; apply Qltb_ge; lra. }
    assert (G2 : (Qltb 0.5 (oblique_left s) && Qltb (oblique_left s) 1)
                 || (Qltb 0.5 (oblique_right s) && Qltb (oblique_right s) 1)
                 = false).
    { apply orb_false_iff. split; apply andb_false_iff; right;
        apply Qltb_ge; assumption. }
    rewrite G1, G2.
    destruct (control_advancing (pid_lat self) (left s - right s)
                tstamp Hlat Ht) as (u & lat' & -> & _).
    cbn. eexists. eexists. split; [reflexivity|]. cbn. split; reflexivity.
Qed.

Lemma constant_speed_branches_publish_witness :
  exists (msg : Twist) (self' : RobotController),
    robot_controller_callback
      (mkNode (Some (uniform_scan 360 0.2)) (mkTwist 0 0) 0
              (PIDController_init 0.22 0.01 0.3 10)
              (mkPID 0.11 0.001 0.01 10 0 0 0 (Queue.mk 10 []) 500)
              true) 5 100
    = Some (Published msg, self') /\
    linear_x msg = 0.005 /\
    pid_lon self' = mkPID 0.11 0.001 0.01 10 0 0 0 (Queue.mk 10 []) 500.
Proof.
  edestruct (constant_speed_branches_publish
               (mkNode (Some (uniform_scan 360 0.2)) (mkTwist 0 0) 0
                       (PIDController_init 0.22 0.01 0.3 10)
                       (mkPID 0.11 0.001 0.01 10 0 0 0 (Queue.mk 10 []) 500)
                       true) 5 100 (uniform_scan 360 0.2))
    as [Hclose _].
  - reflexivity.
  - reflexivity.
  - reflexivity.
  - vm_compute. reflexivity.
  - split; reflexivity.
  - reflexivity.
  - apply Hclose. left. vm_compute. reflexivity.
Defined.
